(** * The StableSwap client (lib/client/src/stable-swap.ts)

    A shallow embedding of the TypeScript client of the stable-swap program:
    the [StableSwap] class with its two static factories ([loadStableSwap],
    [createStableSwap]) and its three methods ([swap], [deposit],
    [withdraw]).

    - Values of @solana/web3.js (public keys, accounts, instructions,
      transactions) are records.
    - A [Promise] that resolves or rejects is a [Result]; code that awaits
      I/O is a state-and-error monad over the [World], which holds the
      ledger and the trace of the I/O calls made so far.
    - The collaborators the file imports but whose behaviour belongs to the
      ledger or to web3.js are the fields of the class [Collaborators].
    - The modules of the client that stable-swap.ts imports (./layout,
      ./instructions, ./util/u64) are modelled from the specification of
      the client; each such definition says so. *)

From Stdlib Require Import ZArith List String Ascii Bool Lia.
From Stdlib Require Import Init.Byte.
From coqutil Require Import Byte Word.LittleEndianList.
Import ListNotations.
Local Open Scope string_scope.
Local Open Scope list_scope.
Local Open Scope Z_scope.

(** ** Buffers and errors *)

Definition Buffer := list byte.

(** [buffer.slice(offset, offset + len)] *)
Definition slice (offset len : nat) (b : Buffer) : Buffer :=
  firstn len (skipn offset b).

(** [a.equals(b)] *)
Fixpoint Buffer_equals (a b : Buffer) : bool :=
  match a, b with
  | [], [] => true
  | x :: a', y :: b' => Byte.eqb x y && Buffer_equals a' b'
  | _, _ => false
  end.

(** A JavaScript error object: its [name] (the class) and its [message]. *)
Record JsError := { name : string; message : string }.

(** [new Error(message)] *)
Definition Error (msg : string) : JsError :=
  {| name := "Error"; message := msg |}.

(** The outcome of an expression that may throw, or of an awaited promise. *)
Inductive Result (A : Type) : Type :=
| Ok (a : A)
| Throw (e : JsError).
Arguments Ok {A} a.
Arguments Throw {A} e.

(** ** State-and-error monad *)

Definition M (S A : Type) : Type := S -> Result A * S.

Definition ret {S A} (a : A) : M S A := fun s => (Ok a, s).

Definition throw {S A} (e : JsError) : M S A := fun s => (Throw e, s).

Definition bind {S A B} (m : M S A) (f : A -> M S B) : M S B :=
  fun s =>
    match m s with
    | (Ok a, s') => f a s'
    | (Throw e, s') => (Throw e, s')
    end.

(** An expression that may throw but touches no state. *)
Definition lift_result {S A} (r : Result A) : M S A := fun s => (r, s).

Notation "x <- m ;; k" := (bind m (fun x => k))
  (at level 61, m at next level, right associativity).
Notation "' pat <- m ;; k" := (bind m (fun x => match x with pat => k end))
  (at level 61, pat pattern, m at next level, right associativity).

(** ** @solana/web3.js values *)

(** A public key, identified with its 32-byte buffer ([toBuffer]);
    [new PublicKey(buffer)] wraps the bytes. *)
Record PublicKey := new_PublicKey { toBuffer : Buffer }.

(** [a.equals(b)] *)
Definition PublicKey_equals (a b : PublicKey) : bool :=
  Buffer_equals (toBuffer a) (toBuffer b).

(** A keypair. *)
Record Account := { publicKey : PublicKey; secretKey : Buffer }.

(** The RPC handle. *)
Record Connection := { rpcEndpoint : string }.

Definition TransactionSignature := string.

Record AccountMeta := {
  pubkey : PublicKey;
  isSigner : bool;
  isWritable : bool
}.

Record TransactionInstruction := {
  keys : list AccountMeta;
  programId : PublicKey;
  data : Buffer
}.

(** The account references of an instruction: address and writability, in
    the order of [keys]. *)
Definition references (i : TransactionInstruction)
  : list (PublicKey * bool) :=
  map (fun k => (pubkey k, isWritable k)) (keys i).

Record Transaction := { instructions : list TransactionInstruction }.

(** [new Transaction()] *)
Definition new_Transaction : Transaction := {| instructions := [] |}.

(** [transaction.add(instruction)] *)
Definition Transaction_add (t : Transaction) (i : TransactionInstruction)
  : Transaction :=
  {| instructions := instructions t ++ [i] |}.

(** The parameter object of [SystemProgram.createAccount]. *)
Record CreateAccountParams := {
  fromPubkey : PublicKey;
  newAccountPubkey : PublicKey;
  lamports : Z;
  space : Z;
  ownerProgramId : PublicKey
}.

(** ** ./util/u64 *)

Module u64.

(** Modelled from the spec: util/u64 is not among the sources.  §6: an
    arbitrary-precision unsigned 64-bit value, constructible from a native
    integer or from an 8-byte little-endian buffer, serializable back to an
    8-byte little-endian buffer. *)
Record Numberu64 := new_Numberu64 { value : Z }.

(** Modelled from the spec: [Numberu64.fromBuffer], the value of an 8-byte
    little-endian buffer (§6). *)
Definition fromBuffer (buffer : Buffer) : Numberu64 :=
  new_Numberu64 (le_combine buffer).

(** Modelled from the spec: [toBuffer], the 8-byte little-endian buffer of
    the value (§6). *)
Definition toBuffer (n : Numberu64) : Buffer := le_split 8 (value n).

End u64.

(** An argument of type [number | Numberu64]. *)
Inductive Amount : Type :=
| Num (n : Z)
| U64 (v : u64.Numberu64).

Definition Amount_value (a : Amount) : Z :=
  match a with
  | Num n => n
  | U64 v => u64.value v
  end.

(** ** ./layout *)

Module layout.

(** The object [StableSwapLayout.decode] returns: the fields that
    [loadStableSwap] reads from it. *)
Record StableSwapData := {
  isInitialized : bool;
  tokenPool : Buffer;
  tokenAccountA : Buffer;
  tokenAccountB : Buffer;
  mintA : Buffer;
  mintB : Buffer;
  tokenProgramId : Buffer;
  ampFactor : Buffer;
  feeNumerator : Buffer;
  feeDenominator : Buffer
}.

(** A buffer-layout structure: its [span] and its [decode]. *)
Record Structure := {
  span : Z;
  decode : Buffer -> Result StableSwapData
}.

(** Modelled from the spec: the MalformedAccountError of §7, raised by the
    codec. *)
Definition MalformedAccountError : JsError :=
  {| name := "MalformedAccountError"; message := "decode" |}.

(** Modelled from the spec: the offset at which the public-key fields of
    the record of §4.1 end, with [extra] further 32-byte fields after the
    token-program id. *)
Definition keys_end (extra : nat) : nat := (1 + 32 * (6 + extra))%nat.

(** Modelled from the spec: [spanInBytes], the fixed length of the record
    (§4.1). *)
Definition spec_span (extra : nat) : nat := (keys_end extra + 24)%nat.

(** Modelled from the spec: layout.ts is not among the sources.  §4.1: a
    one-byte init flag, then 32-byte public-key fields in the declared order
    pool token mint, token account A, token account B, mint A, mint B,
    token-program id, "...", then three 8-byte little-endian unsigned
    integers (amplification factor, fee numerator, fee denominator).
    Decoding fails with MalformedAccountError when the length is not the
    span or the flag byte is not a boolean.  The "..." of the field list is
    the number [extra] of further 32-byte fields. *)
Definition spec_decode (extra : nat) (b : Buffer) : Result StableSwapData :=
  if negb (Nat.eqb (List.length b) (spec_span extra))
  then Throw MalformedAccountError
  else
    let record flag :=
      {| isInitialized := flag;
         tokenPool := slice 1 32 b;
         tokenAccountA := slice 33 32 b;
         tokenAccountB := slice 65 32 b;
         mintA := slice 97 32 b;
         mintB := slice 129 32 b;
         tokenProgramId := slice 161 32 b;
         ampFactor := slice (keys_end extra) 8 b;
         feeNumerator := slice (keys_end extra + 8) 8 b;
         feeDenominator := slice (keys_end extra + 16) 8 b |} in
    match b with
    | x00 :: _ => Ok (record false)
    | x01 :: _ => Ok (record true)
    | _ => Throw MalformedAccountError
    end.

(** Modelled from the spec: the codec of §4.1, [StableSwapLayout]. *)
Definition SpecLayout (extra : nat) : Structure :=
  {| span := Z.of_nat (spec_span extra); decode := spec_decode extra |}.

End layout.

(** ** ./instructions *)

Module instructions.

(** Modelled from the spec: the ValueOutOfRangeError of §7, raised by the
    encoder operation [op]. *)
Definition ValueOutOfRangeError (op : string) : JsError :=
  {| name := "ValueOutOfRangeError"; message := op |}.

Definition u64_max : Z := 2 ^ 64 - 1.

(** Modelled from the spec: the values an 8-byte unsigned field holds
    (§4.2: not negative, not above 2^64-1). *)
Definition in_u64_range (v : Z) : bool := (0 <=? v) && (v <=? u64_max).

(** Modelled from the spec: the values a 1-byte field holds. *)
Definition in_u8_range (v : Z) : bool := (0 <=? v) && (v <=? 255).

(** Modelled from the spec: instructions.ts is not among the sources.
    §4.2 and §9: the normalization step of the encoder, which rejects
    negative values and values exceeding 2^64-1 with ValueOutOfRangeError
    and yields the 8-byte little-endian field otherwise. *)
Definition encode_u64 (op : string) (a : Amount) : Result Buffer :=
  if in_u64_range (Amount_value a)
  then Ok (u64.toBuffer (u64.new_Numberu64 (Amount_value a)))
  else Throw (ValueOutOfRangeError op).

(** Modelled from the spec: the one-byte nonce field of initialize; a value
    outside the domain of the field is rejected (§7). *)
Definition encode_u8 (op : string) (n : Z) : Result Buffer :=
  if in_u8_range n then Ok [byte.of_Z n] else Throw (ValueOutOfRangeError op).

(** Sequencing of expressions that may throw. *)
Definition bind_result {A B} (r : Result A) (f : A -> Result B) : Result B :=
  match r with
  | Ok a => f a
  | Throw e => Throw e
  end.

(** Modelled from the spec: an account reference of §4.2 without the write
    mark.  §4.2 marks no reference as signer. *)
Definition readonly (k : PublicKey) : AccountMeta :=
  {| pubkey := k; isSigner := false; isWritable := false |}.

(** Modelled from the spec: an account reference of §4.2 marked (write). *)
Definition writable (k : PublicKey) : AccountMeta :=
  {| pubkey := k; isSigner := false; isWritable := true |}.

(** Modelled from the spec: §4.2 initialize.  tag = 0; payload = nonce
    (1 byte) + three 8-byte unsigned integers; accounts = [poolAccount
    (write), authority, tokenAccountA, tokenAccountB, poolTokenMint (write),
    destinationPoolTokenAccount (write), token-program reference].  The
    token-program reference is not an argument: it is the constant
    [TOKEN_PROGRAM_ID] of the module. *)
Definition createInitSwapInstruction (TOKEN_PROGRAM_ID : PublicKey)
    (tokenSwapAccount : Account)
    (authority tokenAccountA tokenAccountB tokenPool tokenAccountPool
       swapProgramId : PublicKey)
    (nonce : Z) (ampFactor feeNumerator feeDenominator : Amount)
  : Result TransactionInstruction :=
  bind_result (encode_u8 "initialize" nonce) (fun n =>
  bind_result (encode_u64 "initialize" ampFactor) (fun a =>
  bind_result (encode_u64 "initialize" feeNumerator) (fun fn =>
  bind_result (encode_u64 "initialize" feeDenominator) (fun fd =>
  Ok {| keys := [ writable (publicKey tokenSwapAccount);
                  readonly authority;
                  readonly tokenAccountA;
                  readonly tokenAccountB;
                  writable tokenPool;
                  writable tokenAccountPool;
                  readonly TOKEN_PROGRAM_ID ];
        programId := swapProgramId;
        data := x00 :: n ++ a ++ fn ++ fd |})))).

(** Modelled from the spec: §4.2 swap.  tag = 1; payload = two 8-byte
    unsigned integers (amountIn, minimumAmountOut); accounts = [pool,
    authority, userSource (write), poolSource (write), poolDestination
    (write), userDestination (write), tokenProgramId]. *)
Definition swapInstruction
    (tokenSwap authority userSource poolSource poolDestination
       userDestination swapProgramId tokenProgramId : PublicKey)
    (amountIn minimumAmountOut : Amount)
  : Result TransactionInstruction :=
  bind_result (encode_u64 "swap" amountIn) (fun a =>
  bind_result (encode_u64 "swap" minimumAmountOut) (fun m =>
  Ok {| keys := [ readonly tokenSwap;
                  readonly authority;
                  writable userSource;
                  writable poolSource;
                  writable poolDestination;
                  writable userDestination;
                  readonly tokenProgramId ];
        programId := swapProgramId;
        data := x01 :: a ++ m |})).

(** Modelled from the spec: §4.2 deposit.  tag = 2; payload = three 8-byte
    unsigned integers (tokenAmountA, tokenAmountB, minimumPoolTokenAmount);
    accounts = [pool, authority, userAccountA (write), userAccountB (write),
    poolTokenAccountA (write), poolTokenAccountB (write), poolTokenMint
    (write), destinationPoolAccount (write), tokenProgramId]. *)
Definition depositInstruction
    (tokenSwap authority sourceA sourceB intoA intoB poolToken poolAccount
       swapProgramId tokenProgramId : PublicKey)
    (tokenAmountA tokenAmountB minimumPoolTokenAmount : Amount)
  : Result TransactionInstruction :=
  bind_result (encode_u64 "deposit" tokenAmountA) (fun a =>
  bind_result (encode_u64 "deposit" tokenAmountB) (fun b =>
  bind_result (encode_u64 "deposit" minimumPoolTokenAmount) (fun m =>
  Ok {| keys := [ readonly tokenSwap;
                  readonly authority;
                  writable sourceA;
                  writable sourceB;
                  writable intoA;
                  writable intoB;
                  writable poolToken;
                  writable poolAccount;
                  readonly tokenProgramId ];
        programId := swapProgramId;
        data := x02 :: a ++ b ++ m |}))).

(** Modelled from the spec: §4.2 withdraw.  tag = 3; payload = three 8-byte
    unsigned integers (poolTokenAmount, minimumTokenA, minimumTokenB);
    accounts = [pool, authority, poolTokenMint (write), sourcePoolAccount
    (write), poolTokenAccountA (write), poolTokenAccountB (write),
    userAccountA (write), userAccountB (write), tokenProgramId]. *)
Definition withdrawInstruction
    (tokenSwap authority poolMint sourcePoolAccount fromA fromB userAccountA
       userAccountB swapProgramId tokenProgramId : PublicKey)
    (poolTokenAmount minimumTokenA minimumTokenB : Amount)
  : Result TransactionInstruction :=
  bind_result (encode_u64 "withdraw" poolTokenAmount) (fun p =>
  bind_result (encode_u64 "withdraw" minimumTokenA) (fun a =>
  bind_result (encode_u64 "withdraw" minimumTokenB) (fun b =>
  Ok {| keys := [ readonly tokenSwap;
                  readonly authority;
                  writable poolMint;
                  writable sourcePoolAccount;
                  writable fromA;
                  writable fromB;
                  writable userAccountA;
                  writable userAccountB;
                  readonly tokenProgramId ];
        programId := swapProgramId;
        data := x03 :: p ++ a ++ b |}))).

End instructions.

(** ** The ledger and the collaborators *)

(** What the client imports and does not define: the answers of the ledger
    behind [loadAccount] (./util/account), [getMinimumBalanceForRentExemption]
    (the connection) and [sendAndConfirmTransaction]
    (./util/send-and-confirm-transaction), each a function of the ledger
    state that may reject; [PublicKey.findProgramAddress] and
    [SystemProgram.createAccount] of web3.js; the layout constant of
    ./layout and the token-program constant of ./instructions. *)
Class Collaborators := {
  Ledger : Type;
  loadAccount_answer :
    Connection -> PublicKey -> PublicKey -> Ledger -> Result Buffer * Ledger;
  getMinimumBalanceForRentExemption_answer :
    Connection -> Z -> Ledger -> Result Z * Ledger;
  sendAndConfirmTransaction_answer :
    string -> Connection -> Transaction -> list Account ->
    Ledger -> Result TransactionSignature * Ledger;
  findProgramAddress : list Buffer -> PublicKey -> option (PublicKey * Z);
  SystemProgram_createAccount : CreateAccountParams -> TransactionInstruction;
  StableSwapLayout : layout.Structure;
  TOKEN_PROGRAM_ID : PublicKey
}.

(** The I/O calls the client makes, with their arguments. *)
Inductive Event : Type :=
| CallLoadAccount (connection : Connection) (address programId : PublicKey)
| CallGetMinimumBalanceForRentExemption
    (connection : Connection) (dataLength : Z)
| CallSendAndConfirmTransaction
    (title : string) (connection : Connection) (transaction : Transaction)
    (signers : list Account).

(** The client object (the fields of the class, in the order of the
    constructor's parameters). *)
Record StableSwap := new_StableSwap {
  connection : Connection;
  stableSwap : PublicKey;
  swapProgramId : PublicKey;
  tokenProgramId : PublicKey;
  poolToken : PublicKey;
  authority : PublicKey;
  tokenAccountA : PublicKey;
  tokenAccountB : PublicKey;
  mintA : PublicKey;
  mintB : PublicKey;
  ampFactor : u64.Numberu64;
  feeNumerator : u64.Numberu64;
  feeDenominator : u64.Numberu64;
  payer : Account
}.

(** The client that [loadStableSwap] assembles from the decoded record [d]
    and the derived authority. *)
Definition loaded (conn : Connection) (address pid : PublicKey)
    (feePayer : Account) (d : layout.StableSwapData) (derived : PublicKey)
  : StableSwap :=
  new_StableSwap conn address pid
    (new_PublicKey (layout.tokenProgramId d))
    (new_PublicKey (layout.tokenPool d)) derived
    (new_PublicKey (layout.tokenAccountA d))
    (new_PublicKey (layout.tokenAccountB d))
    (new_PublicKey (layout.mintA d))
    (new_PublicKey (layout.mintB d))
    (u64.fromBuffer (layout.ampFactor d))
    (u64.fromBuffer (layout.feeNumerator d))
    (u64.fromBuffer (layout.feeDenominator d))
    feePayer.

(** The client that [createStableSwap] assembles from its arguments. *)
Definition created (conn : Connection) (feePayer stableSwapAccount : Account)
    (authority tokenAccountA tokenAccountB poolToken mintA mintB
       swapProgramId tokenProgramId : PublicKey)
    (ampFactor feeNumerator feeDenominator : Z) : StableSwap :=
  new_StableSwap conn (publicKey stableSwapAccount) swapProgramId
    tokenProgramId poolToken authority tokenAccountA tokenAccountB
    mintA mintB (u64.new_Numberu64 ampFactor)
    (u64.new_Numberu64 feeNumerator) (u64.new_Numberu64 feeDenominator)
    feePayer.

Section Client.

Context {C : Collaborators}.

(** The ledger and the I/O calls made so far, oldest first. *)
Record World := { ledger : Ledger; trace : list Event }.

(** Code that awaits I/O. *)
Definition IO (A : Type) : Type := M World A.

(** One awaited I/O call: it is recorded, and the ledger answers. *)
Definition perform {A} (ev : Event) (answer : Ledger -> Result A * Ledger)
  : IO A :=
  fun w =>
    let (r, l) := answer (ledger w) in
    (r, {| ledger := l; trace := trace w ++ [ev] |}).

(** [loadAccount(connection, address, programId)] *)
Definition loadAccount (connection : Connection)
    (address programId : PublicKey) : IO Buffer :=
  perform (CallLoadAccount connection address programId)
          (loadAccount_answer connection address programId).

(** [connection.getMinimumBalanceForRentExemption(dataLength)] *)
Definition getMinimumBalanceForRentExemption (connection : Connection)
    (dataLength : Z) : IO Z :=
  perform (CallGetMinimumBalanceForRentExemption connection dataLength)
          (getMinimumBalanceForRentExemption_answer connection dataLength).

(** [sendAndConfirmTransaction(title, connection, transaction, ...signers)] *)
Definition sendAndConfirmTransaction (title : string)
    (connection : Connection) (transaction : Transaction)
    (signers : list Account) : IO TransactionSignature :=
  perform (CallSendAndConfirmTransaction title connection transaction signers)
          (sendAndConfirmTransaction_answer title connection transaction
             signers).

(** [PublicKey.findProgramAddress(seeds, programId)]: the derived address
    and its nonce; it throws when no nonce yields an address. *)
Definition PublicKey_findProgramAddress (seeds : list Buffer)
    (programId : PublicKey) : Result (PublicKey * Z) :=
  match findProgramAddress seeds programId with
  | Some r => Ok r
  | None => Throw (Error "Unable to find a viable program address nonce")
  end.

(** The program-derived address of (pool account address, program id). *)
Definition deriveAuthority (address programId : PublicKey)
  : option PublicKey :=
  option_map fst (findProgramAddress [toBuffer address] programId).

(** *** Static members of [StableSwap] *)

Definition getMinBalanceRentForExemptStableSwap (connection : Connection)
  : IO Z :=
  getMinimumBalanceForRentExemption connection
    (layout.span StableSwapLayout).

Definition loadStableSwap (connection : Connection)
    (address programId : PublicKey) (payer : Account) : IO StableSwap :=
  data <- loadAccount connection address programId ;;
  stableSwapData <- lift_result (layout.decode StableSwapLayout data) ;;
  if negb (layout.isInitialized stableSwapData)
  then throw (Error "Invalid token swap state")
  else
    '(authority, _) <-
      lift_result (PublicKey_findProgramAddress [toBuffer address] programId) ;;
    let poolToken := new_PublicKey (layout.tokenPool stableSwapData) in
    let tokenAccountA := new_PublicKey (layout.tokenAccountA stableSwapData) in
    let tokenAccountB := new_PublicKey (layout.tokenAccountB stableSwapData) in
    let mintA := new_PublicKey (layout.mintA stableSwapData) in
    let mintB := new_PublicKey (layout.mintB stableSwapData) in
    let tokenProgramId :=
      new_PublicKey (layout.tokenProgramId stableSwapData) in
    let ampFactor := u64.fromBuffer (layout.ampFactor stableSwapData) in
    let feeNumerator := u64.fromBuffer (layout.feeNumerator stableSwapData) in
    let feeDenominator :=
      u64.fromBuffer (layout.feeDenominator stableSwapData) in
    ret (new_StableSwap connection address programId tokenProgramId
           poolToken authority tokenAccountA tokenAccountB mintA mintB
           ampFactor feeNumerator feeDenominator payer).

Definition createStableSwap (connection : Connection)
    (payer stableSwapAccount : Account)
    (authority tokenAccountA tokenAccountB poolToken mintA mintB
       tokenAccountPool swapProgramId tokenProgramId : PublicKey)
    (nonce ampFactor feeNumerator feeDenominator : Z) : IO StableSwap :=
  let stableSwap :=
    new_StableSwap connection (publicKey stableSwapAccount) swapProgramId
      tokenProgramId poolToken authority tokenAccountA tokenAccountB
      mintA mintB (u64.new_Numberu64 ampFactor)
      (u64.new_Numberu64 feeNumerator) (u64.new_Numberu64 feeDenominator)
      payer in
  balanceNeeded <- getMinBalanceRentForExemptStableSwap connection ;;
  let transaction :=
    Transaction_add new_Transaction
      (SystemProgram_createAccount
         {| fromPubkey := publicKey payer;
            newAccountPubkey := publicKey stableSwapAccount;
            lamports := balanceNeeded;
            space := layout.span StableSwapLayout;
            ownerProgramId := swapProgramId |}) in
  instruction <-
    lift_result
      (instructions.createInitSwapInstruction TOKEN_PROGRAM_ID
         stableSwapAccount authority tokenAccountA tokenAccountB poolToken
         tokenAccountPool swapProgramId nonce (Num ampFactor)
         (Num feeNumerator) (Num feeDenominator)) ;;
  let transaction := Transaction_add transaction instruction in
  _ <- sendAndConfirmTransaction "createAccount and InitializeSwap"
         connection transaction [payer; stableSwapAccount] ;;
  ret stableSwap.

(** *** Methods of [StableSwap] *)

(** A method runs on the receiver [this] and the world. *)
Record ClientState := { this : StableSwap; world : World }.

Definition Method (A : Type) : Type := M ClientState A.

(** Awaited I/O inside a method: it has no access to the receiver. *)
Definition liftIO {A} (m : IO A) : Method A :=
  fun s =>
    let (r, w) := m (world s) in
    (r, {| this := this s; world := w |}).

(** Reading a field [this.f]. *)
Definition field {A} (f : StableSwap -> A) : Method A :=
  fun s => (Ok (f (this s)), s).

Definition swap
    (userSource poolSource poolDestination userDestination : PublicKey)
    (amountIn minimumAmountOut : Amount) : Method TransactionSignature :=
  this_connection <- field connection ;;
  this_stableSwap <- field stableSwap ;;
  this_authority <- field authority ;;
  this_swapProgramId <- field swapProgramId ;;
  this_tokenProgramId <- field tokenProgramId ;;
  instruction <-
    lift_result
      (instructions.swapInstruction this_stableSwap this_authority
         userSource poolSource poolDestination userDestination
         this_swapProgramId this_tokenProgramId amountIn minimumAmountOut) ;;
  this_payer <- field payer ;;
  liftIO (sendAndConfirmTransaction "swap" this_connection
            (Transaction_add new_Transaction instruction) [this_payer]).

Definition deposit (userAccountA userAccountB poolAccount : PublicKey)
    (tokenAmountA tokenAmountB minimumPoolTokenAmount : Amount)
  : Method TransactionSignature :=
  this_connection <- field connection ;;
  this_stableSwap <- field stableSwap ;;
  this_authority <- field authority ;;
  this_tokenAccountA <- field tokenAccountA ;;
  this_tokenAccountB <- field tokenAccountB ;;
  this_poolToken <- field poolToken ;;
  this_swapProgramId <- field swapProgramId ;;
  this_tokenProgramId <- field tokenProgramId ;;
  instruction <-
    lift_result
      (instructions.depositInstruction this_stableSwap this_authority
         userAccountA userAccountB this_tokenAccountA this_tokenAccountB
         this_poolToken poolAccount this_swapProgramId this_tokenProgramId
         tokenAmountA tokenAmountB minimumPoolTokenAmount) ;;
  this_payer <- field payer ;;
  liftIO (sendAndConfirmTransaction "deposit" this_connection
            (Transaction_add new_Transaction instruction) [this_payer]).

Definition withdraw (userAccountA userAccountB poolAccount : PublicKey)
    (poolTokenAmount minimumTokenA minimumTokenB : Amount)
  : Method TransactionSignature :=
  this_connection <- field connection ;;
  this_stableSwap <- field stableSwap ;;
  this_authority <- field authority ;;
  this_poolToken <- field poolToken ;;
  this_tokenAccountA <- field tokenAccountA ;;
  this_tokenAccountB <- field tokenAccountB ;;
  this_swapProgramId <- field swapProgramId ;;
  this_tokenProgramId <- field tokenProgramId ;;
  instruction <-
    lift_result
      (instructions.withdrawInstruction this_stableSwap this_authority
         this_poolToken poolAccount this_tokenAccountA this_tokenAccountB
         userAccountA userAccountB this_swapProgramId this_tokenProgramId
         poolTokenAmount minimumTokenA minimumTokenB) ;;
  this_payer <- field payer ;;
  liftIO (sendAndConfirmTransaction "withdraw" this_connection
            (Transaction_add new_Transaction instruction) [this_payer]).

(** A method that builds one instruction and submits it alone: when the
    encoder throws nothing else happens, otherwise the transaction is handed
    to [sendAndConfirmTransaction] with the payer as only signer. *)
Definition submit_alone (title : string)
    (built : Result TransactionInstruction) (s : ClientState)
  : Result TransactionSignature * ClientState :=
  match built with
  | Throw e => (Throw e, s)
  | Ok instruction =>
      let (r, l) :=
        sendAndConfirmTransaction_answer title (connection (this s))
          {| instructions := [instruction] |} [payer (this s)]
          (ledger (world s)) in
      (r, {| this := this s;
             world :=
               {| ledger := l;
                  trace :=
                    trace (world s)
                    ++ [CallSendAndConfirmTransaction title
                          (connection (this s))
                          {| instructions := [instruction] |}
                          [payer (this s)]] |} |})
  end.

End Client.

(** ** Diagnostic context of a failure (§7) *)

(** [needle] occurs in [text]. *)
Definition mentions (needle text : string) : bool :=
  match String.index 0 needle text with
  | Some _ => true
  | None => false
  end.

Definition hex_digit (n : Z) : ascii :=
  nth (Z.to_nat n)
      ["0"; "1"; "2"; "3"; "4"; "5"; "6"; "7";
       "8"; "9"; "a"; "b"; "c"; "d"; "e"; "f"]%char "?"%char.

(** A printable rendering of an address: two hexadecimal digits a byte. *)
Fixpoint hex (b : Buffer) : string :=
  match b with
  | [] => EmptyString
  | x :: b' =>
      String (hex_digit (byte.unsigned x / 16))
        (String (hex_digit (byte.unsigned x mod 16)) (hex b'))
  end.

(** The failure [e] names the operation and each address involved. *)
Definition carries_context (operation : string) (addresses : list PublicKey)
    (e : JsError) : bool :=
  mentions operation (message e)
  && forallb (fun a => mentions (hex (toBuffer a)) (message e)) addresses.

(** §7 PoolNotInitializedError: the failure [loadStableSwap] raises on a
    record whose init flag is false. *)
Definition PoolNotInitializedError : JsError :=
  Error "Invalid token swap state".

(** ** A local ledger *)

Module Localnet.

(** The address made of 32 copies of one byte. *)
Definition key (b : byte) : PublicKey := new_PublicKey (repeat b 32).

Definition xor_byte (a b : byte) : byte :=
  byte.of_Z (Z.lxor (byte.unsigned a) (byte.unsigned b)).

Fixpoint xor_bytes (a b : Buffer) : Buffer :=
  match a, b with
  | x :: a', y :: b' => xor_byte x y :: xor_bytes a' b'
  | _, _ => []
  end.

(** A stand-in for the derivation of a program address: the bytes of the
    first seed combined with those of the program id. *)
Definition derive (seeds : list Buffer) (programId : PublicKey)
  : option (PublicKey * Z) :=
  match seeds with
  | seed :: _ =>
      Some (new_PublicKey (xor_bytes seed (toBuffer programId)), 255)
  | [] => None
  end.

Definition systemProgramId : PublicKey := key x00.

(** The system program's create-account instruction: both accounts sign and
    are written; the data are the instruction index, the lamports, the space
    and the owner. *)
Definition createAccount (p : CreateAccountParams) : TransactionInstruction :=
  {| keys := [ {| pubkey := fromPubkey p; isSigner := true;
                  isWritable := true |};
               {| pubkey := newAccountPubkey p; isSigner := true;
                  isWritable := true |} ];
     programId := systemProgramId;
     data := le_split 4 0 ++ le_split 8 (lamports p) ++ le_split 8 (space p)
             ++ toBuffer (ownerProgramId p) |}.

(** The accounts of the ledger: address and data. *)
Definition Accounts := list (PublicKey * Buffer).

Definition fetch (address : PublicKey) (l : Accounts)
  : Result Buffer * Accounts :=
  match find (fun a => PublicKey_equals (fst a) address) l with
  | Some (_, d) => (Ok d, l)
  | None => (Throw (Error "Failed to find account"), l)
  end.

#[local] Instance localnet : Collaborators := {|
  Ledger := Accounts;
  loadAccount_answer := fun _ address _ l => fetch address l;
  getMinimumBalanceForRentExemption_answer :=
    fun _ n l => (Ok (6960 * (128 + n)), l);
  sendAndConfirmTransaction_answer := fun _ _ _ _ l => (Ok "signature", l);
  findProgramAddress := derive;
  SystemProgram_createAccount := createAccount;
  StableSwapLayout := layout.SpecLayout 0;
  TOKEN_PROGRAM_ID := key x06
|}.

Definition rpc : Connection := {| rpcEndpoint := "http://localhost:8899" |}.

Definition payerAccount : Account :=
  {| publicKey := key x70; secretKey := repeat x71 64 |}.

Definition poolAccount : Account :=
  {| publicKey := key xa0; secretKey := repeat xa1 64 |}.

Definition swapProgram : PublicKey := key x50.

(** A pool record of the layout, with the given init flag. *)
Definition record (flag : byte) : Buffer :=
  flag :: repeat x11 32 ++ repeat x12 32 ++ repeat x13 32 ++ repeat x14 32
       ++ repeat x15 32 ++ repeat x06 32
       ++ le_split 8 100 ++ le_split 8 4 ++ le_split 8 1000.

(** The fields of [record], decoded. *)
Definition fields (flag : bool) : layout.StableSwapData :=
  {| layout.isInitialized := flag;
     layout.tokenPool := repeat x11 32;
     layout.tokenAccountA := repeat x12 32;
     layout.tokenAccountB := repeat x13 32;
     layout.mintA := repeat x14 32;
     layout.mintB := repeat x15 32;
     layout.tokenProgramId := repeat x06 32;
     layout.ampFactor := le_split 8 100;
     layout.feeNumerator := le_split 8 4;
     layout.feeDenominator := le_split 8 1000 |}.

(** A ledger with an initialized pool at [key xa0] and an uninitialized one
    at [key xb0]. *)
Definition genesis : World :=
  {| ledger := [(key xa0, record x01); (key xb0, record x00)];
     trace := [] |}.

(** A client of the pool at [key xa0]. *)
Definition client : StableSwap :=
  new_StableSwap rpc (key xa0) swapProgram (key x06) (key x11)
    (key xf0) (key x12) (key x13) (key x14) (key x15)
    (u64.new_Numberu64 100) (u64.new_Numberu64 4) (u64.new_Numberu64 1000)
    payerAccount.

(** The state of a method call on [client] over the genesis ledger. *)
Definition start : ClientState := {| this := client; world := genesis |}.

End Localnet.

(** ** A ledger whose node rejects *)

Module Faultnet.

(** The accounts of [Localnet] behind a node that serves account data but
    rejects the rent query and every submission, with a web3.js in which no
    program address can be derived. *)
#[local] Instance faultnet : Collaborators := {|
  Ledger := Localnet.Accounts;
  loadAccount_answer := fun _ address _ l => Localnet.fetch address l;
  getMinimumBalanceForRentExemption_answer :=
    fun _ _ l => (Throw (Error "failed to get minimum balance"), l);
  sendAndConfirmTransaction_answer :=
    fun _ _ _ _ l => (Throw (Error "Transaction was not confirmed"), l);
  findProgramAddress := fun _ _ => None;
  SystemProgram_createAccount := Localnet.createAccount;
  StableSwapLayout := layout.SpecLayout 0;
  TOKEN_PROGRAM_ID := Localnet.key x06
|}.

(** An initialized pool at [key xa0] and an account at [key xd0] whose data
    are not a pool record. *)
Definition genesis : World :=
  {| ledger := [ (Localnet.key xa0, Localnet.record x01);
                 (Localnet.key xd0, [x01; x02; x03]) ];
     trace := [] |}.

(** The state of a method call on [Localnet.client] over this ledger. *)
Definition start : ClientState :=
  {| this := Localnet.client; world := genesis |}.

End Faultnet.

(** * Properties *)

Example mentions_found :
  mentions "swap" "Invalid token swap state" = true.
Proof. reflexivity. Qed.

Example carries_context_found :
  carries_context "load" [new_PublicKey [x0a; xff]]
    (Error "load 0aff: account not found") = true.
Proof. reflexivity. Qed.

(** Unfolds the monadic plumbing of a definition. *)
Ltac run :=
  unfold bind, ret, throw, lift_result, perform, instructions.bind_result
    in *; cbn [fst snd] in *.

Section LoadStableSwap.

Context {C : Collaborators}.

Variables (conn : Connection) (address pid : PublicKey) (feePayer : Account).

(** [loadStableSwap], path by path. *)
Lemma loadStableSwap_paths (w : World) :
  loadStableSwap conn address pid feePayer w =
  match loadAccount conn address pid w with
  | (Throw e, w') => (Throw e, w')
  | (Ok blob, w') =>
      match layout.decode StableSwapLayout blob with
      | Throw e => (Throw e, w')
      | Ok d =>
          if layout.isInitialized d then
            match findProgramAddress [toBuffer address] pid with
            | Some (derived, _) =>
                (Ok (loaded conn address pid feePayer d derived), w')
            | None =>
                (Throw (Error "Unable to find a viable program address nonce"),
                 w')
            end
          else (Throw (Error "Invalid token swap state"), w')
      end
  end.
Proof.
  unfold loadStableSwap, PublicKey_findProgramAddress. run.
  destruct (loadAccount conn address pid w) as [[blob | e] w']; trivial.
  destruct (layout.decode StableSwapLayout blob) as [d | e]; trivial.
  destruct (layout.isInitialized d); cbn; trivial.
  destruct (findProgramAddress [toBuffer address] pid) as [[derived n] | ];
    reflexivity.
Qed.

(** A successful load fetched a blob, decoded it, found it initialized and
    derived the authority. *)
Lemma loadStableSwap_Ok_inv (w : World) (c : StableSwap) :
  fst (loadStableSwap conn address pid feePayer w) = Ok c ->
  exists blob d derived,
    fst (loadAccount conn address pid w) = Ok blob /\
    layout.decode StableSwapLayout blob = Ok d /\
    layout.isInitialized d = true /\
    deriveAuthority address pid = Some derived /\
    c = loaded conn address pid feePayer d derived.
Proof.
  rewrite loadStableSwap_paths. unfold deriveAuthority.
  destruct (loadAccount conn address pid w) as [[blob | e] w'];
    [ | discriminate ].
  destruct (layout.decode StableSwapLayout blob) as [d | e] eqn:Hd;
    [ | discriminate ].
  destruct (layout.isInitialized d) eqn:Hi; [ | discriminate ].
  destruct (findProgramAddress [toBuffer address] pid) as [[derived n] | ];
    [ | discriminate ].
  cbn. intros H. injection H as <-.
  exists blob, d, derived. auto.
Qed.

(** C4: when the fetched blob decodes and its init flag is false,
    [loadStableSwap] fails with PoolNotInitializedError (so it returns no
    client); when the flag is true it does not fail with that error. *)
Theorem loadStableSwap_initialization_flag
    (w w' : World) (blob : Buffer) (d : layout.StableSwapData) :
  loadAccount conn address pid w = (Ok blob, w') ->
  layout.decode StableSwapLayout blob = Ok d ->
  (layout.isInitialized d = false ->
   loadStableSwap conn address pid feePayer w
   = (Throw PoolNotInitializedError, w'))
  /\ (layout.isInitialized d = true ->
      fst (loadStableSwap conn address pid feePayer w)
      <> Throw PoolNotInitializedError).
Proof.
  intros Hblob Hd. rewrite loadStableSwap_paths, Hblob, Hd. split; intros ->.
  - reflexivity.
  - destruct (findProgramAddress [toBuffer address] pid) as [[derived n] | ];
      cbn; unfold PoolNotInitializedError, Error; congruence.
Qed.

(** C9, as amended: a failure of [loadStableSwap] is the failure of the
    account fetch or of the decoder, passed on unchanged, or a plain Error
    with a fixed message; the one raised on a record whose init flag is
    false is Error "Invalid token swap state", which names neither the
    operation nor any address. *)
Theorem loadStableSwap_failures (w : World) (e : JsError) :
  fst (loadStableSwap conn address pid feePayer w) = Throw e ->
  fst (loadAccount conn address pid w) = Throw e
  \/ (exists blob,
        fst (loadAccount conn address pid w) = Ok blob /\
        layout.decode StableSwapLayout blob = Throw e)
  \/ (exists blob d,
        fst (loadAccount conn address pid w) = Ok blob /\
        layout.decode StableSwapLayout blob = Ok d /\
        layout.isInitialized d = false /\
        e = Error "Invalid token swap state" /\
        forall addresses,
          carries_context "loadStableSwap" addresses e = false /\
          carries_context "load" addresses e = false)
  \/ e = Error "Unable to find a viable program address nonce".
Proof.
  rewrite loadStableSwap_paths.
  destruct (loadAccount conn address pid w) as [[blob | e0] w']; cbn.
  - destruct (layout.decode StableSwapLayout blob) as [d | e0] eqn:Hd; cbn.
    + destruct (layout.isInitialized d) eqn:Hflag.
      * destruct (findProgramAddress [toBuffer address] pid)
          as [[derived n] | ]; cbn; [ discriminate | ].
        intros H. injection H as <-. auto.
      * cbn. intros H. injection H as <-. right. right. left.
        exists blob, d.
        split; [ reflexivity | ]. split; [ exact Hd | ].
        split; [ exact Hflag | ]. split; [ reflexivity | ].
        intros addresses. split; reflexivity.
    + intros H. injection H as <-. right. left. exists blob. auto.
  - intros H. injection H as <-. auto.
Qed.

End LoadStableSwap.

Section Factories.

Context {C : Collaborators}.

(** [createStableSwap], path by path. *)
Lemma createStableSwap_paths
    (conn : Connection) (feePayer stableSwapAccount : Account)
    (auth tokA tokB pool mA mB tokPool swapPid tokPid : PublicKey)
    (nonce amp feeN feeD : Z) (w : World) :
  createStableSwap conn feePayer stableSwapAccount auth tokA tokB pool mA mB
    tokPool swapPid tokPid nonce amp feeN feeD w =
  match getMinBalanceRentForExemptStableSwap conn w with
  | (Throw e, w1) => (Throw e, w1)
  | (Ok balanceNeeded, w1) =>
      match instructions.createInitSwapInstruction TOKEN_PROGRAM_ID
              stableSwapAccount auth tokA tokB pool tokPool swapPid nonce
              (Num amp) (Num feeN) (Num feeD) with
      | Throw e => (Throw e, w1)
      | Ok init =>
          match sendAndConfirmTransaction "createAccount and InitializeSwap"
                  conn
                  {| instructions :=
                       [ SystemProgram_createAccount
                           {| fromPubkey := publicKey feePayer;
                              newAccountPubkey := publicKey stableSwapAccount;
                              lamports := balanceNeeded;
                              space := layout.span StableSwapLayout;
                              ownerProgramId := swapPid |};
                         init ] |}
                  [feePayer; stableSwapAccount] w1 with
          | (Throw e, w2) => (Throw e, w2)
          | (Ok _, w2) =>
              (Ok (created conn feePayer stableSwapAccount auth tokA tokB pool
                     mA mB swapPid tokPid amp feeN feeD), w2)
          end
      end
  end.
Proof.
  unfold createStableSwap. run.
  destruct (getMinBalanceRentForExemptStableSwap conn w)
    as [[balanceNeeded | e] w1]; reflexivity.
Qed.

(** C1, as amended: a client that [loadStableSwap] returns has as authority
    the program-derived address of (pool account address, program id); a
    client that [createStableSwap] returns has the authority its caller
    supplied, which is neither derived nor compared with the derivation. *)
Theorem authority_of_constructed_client :
  (forall conn address pid feePayer w c,
      fst (loadStableSwap conn address pid feePayer w) = Ok c ->
      stableSwap c = address /\ swapProgramId c = pid /\
      deriveAuthority address pid = Some (authority c))
  /\ (forall conn feePayer stableSwapAccount auth tokA tokB pool mA mB tokPool
        swapPid tokPid nonce amp feeN feeD w c,
      fst (createStableSwap conn feePayer stableSwapAccount auth tokA tokB
             pool mA mB tokPool swapPid tokPid nonce amp feeN feeD w) = Ok c ->
      stableSwap c = publicKey stableSwapAccount /\ swapProgramId c = swapPid /\
      authority c = auth).
Proof.
  split.
  - intros conn address pid feePayer w c H.
    apply loadStableSwap_Ok_inv in H.
    destruct H as (blob & d & derived & _ & _ & _ & Hderive & ->).
    cbn. auto.
  - intros conn feePayer stableSwapAccount auth tokA tokB pool mA mB tokPool
      swapPid tokPid nonce amp feeN feeD w c.
    rewrite createStableSwap_paths.
    destruct (getMinBalanceRentForExemptStableSwap conn w)
      as [[balanceNeeded | e] w1]; [ | discriminate ].
    destruct (instructions.createInitSwapInstruction _ _ _ _ _ _ _ _ _ _ _ _)
      as [init | e]; [ | discriminate ].
    destruct (sendAndConfirmTransaction _ _ _ _ w1) as [[sig | e] w2];
      [ | discriminate ].
    cbn. intros H. injection H as <-. cbn. auto.
Qed.

(** C10: the token-program id of a loaded client is the token-program id
    field decoded from the fetched blob; two loads that fetch the same blob
    yield the same token-program id, whatever their connection, address,
    program id and payer. *)
Theorem tokenProgramId_from_blob :
  (forall conn address pid feePayer w c,
      fst (loadStableSwap conn address pid feePayer w) = Ok c ->
      exists blob d,
        fst (loadAccount conn address pid w) = Ok blob /\
        layout.decode StableSwapLayout blob = Ok d /\
        tokenProgramId c = new_PublicKey (layout.tokenProgramId d))
  /\ (forall conn1 address1 pid1 feePayer1 w1 c1
             conn2 address2 pid2 feePayer2 w2 c2,
      fst (loadStableSwap conn1 address1 pid1 feePayer1 w1) = Ok c1 ->
      fst (loadStableSwap conn2 address2 pid2 feePayer2 w2) = Ok c2 ->
      fst (loadAccount conn1 address1 pid1 w1)
      = fst (loadAccount conn2 address2 pid2 w2) ->
      tokenProgramId c1 = tokenProgramId c2).
Proof.
  split.
  - intros conn address pid feePayer w c H.
    apply loadStableSwap_Ok_inv in H.
    destruct H as (blob & d & derived & Hblob & Hd & _ & _ & ->).
    exists blob, d. cbn. auto.
  - intros conn1 address1 pid1 feePayer1 w1 c1
           conn2 address2 pid2 feePayer2 w2 c2 H1 H2 Hsame.
    apply loadStableSwap_Ok_inv in H1, H2.
    destruct H1 as (blob1 & d1 & derived1 & Hblob1 & Hd1 & _ & _ & ->).
    destruct H2 as (blob2 & d2 & derived2 & Hblob2 & Hd2 & _ & _ & ->).
    rewrite Hblob1, Hblob2 in Hsame. injection Hsame as <-.
    rewrite Hd1 in Hd2. injection Hd2 as <-. reflexivity.
Qed.

End Factories.

(** ** The fixed layout *)

Lemma slice_length (offset len : nat) (b : Buffer) :
  (offset + len <= List.length b)%nat -> List.length (slice offset len b) = len.
Proof.
  intros H. unfold slice. rewrite length_firstn, length_skipn. lia.
Qed.

Lemma spec_decode_Ok_inv (extra : nat) (b : Buffer)
    (d : layout.StableSwapData) :
  layout.spec_decode extra b = Ok d ->
  List.length b = layout.spec_span extra /\
  layout.tokenPool d = slice 1 32 b /\
  layout.tokenAccountA d = slice 33 32 b /\
  layout.tokenAccountB d = slice 65 32 b /\
  layout.mintA d = slice 97 32 b /\
  layout.mintB d = slice 129 32 b /\
  layout.tokenProgramId d = slice 161 32 b /\
  layout.ampFactor d = slice (193 + 32 * extra) 8 b /\
  layout.feeNumerator d = slice (201 + 32 * extra) 8 b /\
  layout.feeDenominator d = slice (209 + 32 * extra) 8 b.
Proof.
  unfold layout.spec_decode.
  destruct (Nat.eqb (List.length b) (layout.spec_span extra)) eqn:Hlen;
    cbn [negb]; [ | discriminate ].
  apply Nat.eqb_eq in Hlen.
  replace (layout.keys_end extra) with (193 + 32 * extra)%nat
    by (unfold layout.keys_end; lia).
  replace (193 + 32 * extra + 8)%nat with (201 + 32 * extra)%nat by lia.
  replace (193 + 32 * extra + 16)%nat with (209 + 32 * extra)%nat by lia.
  destruct b as [ | flag rest]; [ discriminate | ].
  destruct flag; try discriminate; intros H; injection H as <-; cbn;
    repeat split; assumption.
Qed.

Section FixedLayout.

Context {C : Collaborators}.

(** C5: with the fixed layout of §4.1, the fields of a loaded client are
    those of the fetched blob: the six public keys are the 32-byte fields at
    offsets 1, 33, 65, 97, 129 and 161 (pool token mint, token account A,
    token account B, mint A, mint B, token-program id), and the three
    numbers are the little-endian values of the three trailing 8-byte
    fields (amplification factor, fee numerator, fee denominator). *)
Theorem loaded_fields_from_blob (extra : nat)
    (conn : Connection) (address pid : PublicKey) (feePayer : Account)
    (w : World) (c : StableSwap) :
  StableSwapLayout = layout.SpecLayout extra ->
  fst (loadStableSwap conn address pid feePayer w) = Ok c ->
  exists blob,
    fst (loadAccount conn address pid w) = Ok blob /\
    List.length blob = (1 + 32 * (6 + extra) + 3 * 8)%nat /\
    poolToken c = new_PublicKey (slice 1 32 blob) /\
    tokenAccountA c = new_PublicKey (slice 33 32 blob) /\
    tokenAccountB c = new_PublicKey (slice 65 32 blob) /\
    mintA c = new_PublicKey (slice 97 32 blob) /\
    mintB c = new_PublicKey (slice 129 32 blob) /\
    tokenProgramId c = new_PublicKey (slice 161 32 blob) /\
    u64.value (ampFactor c)
    = le_combine (slice (193 + 32 * extra) 8 blob) /\
    u64.value (feeNumerator c)
    = le_combine (slice (201 + 32 * extra) 8 blob) /\
    u64.value (feeDenominator c)
    = le_combine (slice (209 + 32 * extra) 8 blob) /\
    Forall (fun field => List.length (toBuffer field) = 32%nat)
      [poolToken c; tokenAccountA c; tokenAccountB c; mintA c; mintB c;
       tokenProgramId c] /\
    Forall (fun n => 0 <= u64.value n < 2 ^ 64)
      [ampFactor c; feeNumerator c; feeDenominator c].
Proof.
  intros Hlayout H. apply loadStableSwap_Ok_inv in H.
  destruct H as (blob & d & derived & Hblob & Hd & _ & _ & ->).
  rewrite Hlayout in Hd. cbn in Hd. apply spec_decode_Ok_inv in Hd.
  unfold layout.spec_span, layout.keys_end in Hd.
  exists blob. cbn.
  destruct Hd as (Hlen & -> & -> & -> & -> & -> & -> & -> & -> & ->).
  repeat (split; [ first [ assumption | reflexivity | lia ] | ]).
  split.
  - repeat apply Forall_cons; try apply Forall_nil; cbn [toBuffer];
      apply slice_length; lia.
  - repeat apply Forall_cons; try apply Forall_nil;
      unfold u64.fromBuffer; cbn [u64.value];
      match goal with
      | |- _ <= le_combine ?b < _ =>
          pose proof (le_combine_bound b) as Hb;
          rewrite (slice_length _ 8 blob) in Hb by lia;
          exact Hb
      end.
Qed.

End FixedLayout.

(** ** The instruction encoder *)

Lemma in_u64_range_true (v : Z) :
  instructions.in_u64_range v = true <-> 0 <= v <= 2 ^ 64 - 1.
Proof.
  unfold instructions.in_u64_range, instructions.u64_max.
  rewrite andb_true_iff, !Z.leb_le. tauto.
Qed.

Lemma in_u64_range_false (v : Z) :
  instructions.in_u64_range v = false <-> v < 0 \/ v > 2 ^ 64 - 1.
Proof.
  unfold instructions.in_u64_range, instructions.u64_max.
  rewrite andb_false_iff, !Z.leb_gt. lia.
Qed.

Lemma in_u8_range_true (v : Z) :
  instructions.in_u8_range v = true <-> 0 <= v <= 255.
Proof.
  unfold instructions.in_u8_range. rewrite andb_true_iff, !Z.leb_le. tauto.
Qed.

Lemma encode_u64_Ok (op : string) (a : Amount) :
  0 <= Amount_value a <= 2 ^ 64 - 1 ->
  instructions.encode_u64 op a = Ok (le_split 8 (Amount_value a)).
Proof.
  intros H. apply in_u64_range_true in H.
  unfold instructions.encode_u64. rewrite H. reflexivity.
Qed.

Lemma encode_u64_Throw (op : string) (a : Amount) :
  Amount_value a < 0 \/ Amount_value a > 2 ^ 64 - 1 ->
  instructions.encode_u64 op a
  = Throw (instructions.ValueOutOfRangeError op).
Proof.
  intros H. apply in_u64_range_false in H.
  unfold instructions.encode_u64. rewrite H. reflexivity.
Qed.

(** An encoded amount is its 8-byte field or the range error. *)
Lemma encode_u64_cases (op : string) (a : Amount) :
  instructions.encode_u64 op a = Ok (le_split 8 (Amount_value a))
  \/ instructions.encode_u64 op a
     = Throw (instructions.ValueOutOfRangeError op).
Proof.
  unfold instructions.encode_u64.
  destruct (instructions.in_u64_range (Amount_value a)); auto.
Qed.

Lemma encode_u8_cases (op : string) (n : Z) :
  instructions.encode_u8 op n = Ok [byte.of_Z n]
  \/ instructions.encode_u8 op n
     = Throw (instructions.ValueOutOfRangeError op).
Proof.
  unfold instructions.encode_u8.
  destruct (instructions.in_u8_range n); auto.
Qed.

(** Rewrites every encoded amount whose range is known. *)
Ltac encode :=
  repeat match goal with
    | H : 0 <= Amount_value ?a <= _
      |- context [instructions.encode_u64 ?op ?a] =>
        rewrite (encode_u64_Ok op a H)
    | H : Amount_value ?a < 0 \/ _
      |- context [instructions.encode_u64 ?op ?a] =>
        rewrite (encode_u64_Throw op a H)
    end;
  cbn [instructions.bind_result].

(** Splits a [Forall] or an [Exists] over an explicit list. *)
Ltac amounts :=
  repeat match goal with
    | H : Forall _ (_ :: _) |- _ => inversion H; subst; clear H
    | H : Forall _ [] |- _ => clear H
    | H : Exists _ (_ :: _) |- _ => inversion H; subst; clear H
    | H : Exists _ [] |- _ => inversion H
    end.

(** Settles an encoder call some amount of which is out of range. *)
Ltac rejected :=
  amounts; encode;
  repeat match goal with
    | |- context [instructions.encode_u64 ?op ?a] =>
        destruct (encode_u64_cases op a) as [-> | ->];
        cbn [instructions.bind_result]
    | |- context [instructions.encode_u8 ?op ?n] =>
        destruct (encode_u8_cases op n) as [-> | ->];
        cbn [instructions.bind_result]
    end;
  reflexivity.

Section Encoder.

Variables (k1 k2 k3 k4 k5 k6 k7 k8 k9 k10 : PublicKey).

Lemma swapInstruction_Ok (amountIn minimumAmountOut : Amount) :
  Forall (fun a => 0 <= Amount_value a <= 2 ^ 64 - 1)
    [amountIn; minimumAmountOut] ->
  instructions.swapInstruction k1 k2 k3 k4 k5 k6 k7 k8
    amountIn minimumAmountOut
  = Ok {| keys := [ instructions.readonly k1; instructions.readonly k2;
                    instructions.writable k3; instructions.writable k4;
                    instructions.writable k5; instructions.writable k6;
                    instructions.readonly k8 ];
          programId := k7;
          data := x01 :: le_split 8 (Amount_value amountIn)
                      ++ le_split 8 (Amount_value minimumAmountOut) |}.
Proof.
  intros H. amounts. unfold instructions.swapInstruction. encode.
  reflexivity.
Qed.

Lemma swapInstruction_Throw (amountIn minimumAmountOut : Amount) :
  Exists (fun a => Amount_value a < 0 \/ Amount_value a > 2 ^ 64 - 1)
    [amountIn; minimumAmountOut] ->
  instructions.swapInstruction k1 k2 k3 k4 k5 k6 k7 k8
    amountIn minimumAmountOut
  = Throw (instructions.ValueOutOfRangeError "swap").
Proof.
  intros H. unfold instructions.swapInstruction. rejected.
Qed.

Lemma depositInstruction_Ok (a b m : Amount) :
  Forall (fun a => 0 <= Amount_value a <= 2 ^ 64 - 1) [a; b; m] ->
  instructions.depositInstruction k1 k2 k3 k4 k5 k6 k7 k8 k9 k10 a b m
  = Ok {| keys := [ instructions.readonly k1; instructions.readonly k2;
                    instructions.writable k3; instructions.writable k4;
                    instructions.writable k5; instructions.writable k6;
                    instructions.writable k7; instructions.writable k8;
                    instructions.readonly k10 ];
          programId := k9;
          data := x02 :: le_split 8 (Amount_value a)
                      ++ le_split 8 (Amount_value b)
                      ++ le_split 8 (Amount_value m) |}.
Proof.
  intros H. amounts. unfold instructions.depositInstruction. encode.
  reflexivity.
Qed.

Lemma depositInstruction_Throw (a b m : Amount) :
  Exists (fun a => Amount_value a < 0 \/ Amount_value a > 2 ^ 64 - 1)
    [a; b; m] ->
  instructions.depositInstruction k1 k2 k3 k4 k5 k6 k7 k8 k9 k10 a b m
  = Throw (instructions.ValueOutOfRangeError "deposit").
Proof.
  intros H. unfold instructions.depositInstruction. rejected.
Qed.

Lemma withdrawInstruction_Ok (p a b : Amount) :
  Forall (fun a => 0 <= Amount_value a <= 2 ^ 64 - 1) [p; a; b] ->
  instructions.withdrawInstruction k1 k2 k3 k4 k5 k6 k7 k8 k9 k10 p a b
  = Ok {| keys := [ instructions.readonly k1; instructions.readonly k2;
                    instructions.writable k3; instructions.writable k4;
                    instructions.writable k5; instructions.writable k6;
                    instructions.writable k7; instructions.writable k8;
                    instructions.readonly k10 ];
          programId := k9;
          data := x03 :: le_split 8 (Amount_value p)
                      ++ le_split 8 (Amount_value a)
                      ++ le_split 8 (Amount_value b) |}.
Proof.
  intros H. amounts. unfold instructions.withdrawInstruction. encode.
  reflexivity.
Qed.

Lemma withdrawInstruction_Throw (p a b : Amount) :
  Exists (fun a => Amount_value a < 0 \/ Amount_value a > 2 ^ 64 - 1)
    [p; a; b] ->
  instructions.withdrawInstruction k1 k2 k3 k4 k5 k6 k7 k8 k9 k10 p a b
  = Throw (instructions.ValueOutOfRangeError "withdraw").
Proof.
  intros H. unfold instructions.withdrawInstruction. rejected.
Qed.

Lemma createInitSwapInstruction_Ok (acct : Account) (nonce : Z)
    (amp feeN feeD : Amount) :
  0 <= nonce <= 255 ->
  Forall (fun a => 0 <= Amount_value a <= 2 ^ 64 - 1) [amp; feeN; feeD] ->
  instructions.createInitSwapInstruction k7 acct k1 k2 k3 k4 k5 k6 nonce
    amp feeN feeD
  = Ok {| keys := [ instructions.writable (publicKey acct);
                    instructions.readonly k1; instructions.readonly k2;
                    instructions.readonly k3; instructions.writable k4;
                    instructions.writable k5; instructions.readonly k7 ];
          programId := k6;
          data := x00 :: byte.of_Z nonce :: le_split 8 (Amount_value amp)
                      ++ le_split 8 (Amount_value feeN)
                      ++ le_split 8 (Amount_value feeD) |}.
Proof.
  intros Hn H. amounts. unfold instructions.createInitSwapInstruction.
  apply in_u8_range_true in Hn. unfold instructions.encode_u8. rewrite Hn.
  cbn [instructions.bind_result]. encode. reflexivity.
Qed.

Lemma createInitSwapInstruction_Throw (acct : Account) (nonce : Z)
    (amp feeN feeD : Amount) :
  Exists (fun a => Amount_value a < 0 \/ Amount_value a > 2 ^ 64 - 1)
    [amp; feeN; feeD] ->
  instructions.createInitSwapInstruction k7 acct k1 k2 k3 k4 k5 k6 nonce
    amp feeN feeD
  = Throw (instructions.ValueOutOfRangeError "initialize").
Proof.
  intros H. unfold instructions.createInitSwapInstruction. rejected.
Qed.

End Encoder.

(** ** The methods *)

Section Methods.

Context {C : Collaborators}.

Lemma swap_paths (userSource poolSource poolDestination userDestination
                    : PublicKey)
    (amountIn minimumAmountOut : Amount) (s : ClientState) :
  swap userSource poolSource poolDestination userDestination amountIn
    minimumAmountOut s
  = submit_alone "swap"
      (instructions.swapInstruction (stableSwap (this s))
         (authority (this s)) userSource poolSource poolDestination
         userDestination (swapProgramId (this s)) (tokenProgramId (this s))
         amountIn minimumAmountOut) s.
Proof.
  unfold swap, submit_alone, field, liftIO, sendAndConfirmTransaction. run.
  destruct (instructions.swapInstruction _ _ _ _ _ _ _ _ _ _); cbn;
    [ | reflexivity ].
  destruct (sendAndConfirmTransaction_answer _ _ _ _ _); reflexivity.
Qed.

Lemma deposit_paths (userAccountA userAccountB poolAccount : PublicKey)
    (tokenAmountA tokenAmountB minimumPoolTokenAmount : Amount)
    (s : ClientState) :
  deposit userAccountA userAccountB poolAccount tokenAmountA tokenAmountB
    minimumPoolTokenAmount s
  = submit_alone "deposit"
      (instructions.depositInstruction (stableSwap (this s))
         (authority (this s)) userAccountA userAccountB
         (tokenAccountA (this s)) (tokenAccountB (this s))
         (poolToken (this s)) poolAccount (swapProgramId (this s))
         (tokenProgramId (this s)) tokenAmountA tokenAmountB
         minimumPoolTokenAmount) s.
Proof.
  unfold deposit, submit_alone, field, liftIO, sendAndConfirmTransaction.
  run.
  destruct (instructions.depositInstruction _ _ _ _ _ _ _ _ _ _ _ _ _); cbn;
    [ | reflexivity ].
  destruct (sendAndConfirmTransaction_answer _ _ _ _ _); reflexivity.
Qed.

Lemma withdraw_paths (userAccountA userAccountB poolAccount : PublicKey)
    (poolTokenAmount minimumTokenA minimumTokenB : Amount)
    (s : ClientState) :
  withdraw userAccountA userAccountB poolAccount poolTokenAmount
    minimumTokenA minimumTokenB s
  = submit_alone "withdraw"
      (instructions.withdrawInstruction (stableSwap (this s))
         (authority (this s)) (poolToken (this s)) poolAccount
         (tokenAccountA (this s)) (tokenAccountB (this s)) userAccountA
         userAccountB (swapProgramId (this s)) (tokenProgramId (this s))
         poolTokenAmount minimumTokenA minimumTokenB) s.
Proof.
  unfold withdraw, submit_alone, field, liftIO, sendAndConfirmTransaction.
  run.
  destruct (instructions.withdrawInstruction _ _ _ _ _ _ _ _ _ _ _ _ _); cbn;
    [ | reflexivity ].
  destruct (sendAndConfirmTransaction_answer _ _ _ _ _); reflexivity.
Qed.

Lemma submit_alone_this (title : string)
    (built : Result TransactionInstruction) (s : ClientState) :
  this (snd (submit_alone title built s)) = this s.
Proof.
  unfold submit_alone. destruct built as [instruction | e]; cbn;
    [ | reflexivity ].
  destruct (sendAndConfirmTransaction_answer _ _ _ _ _); reflexivity.
Qed.

Lemma submit_alone_trace (title : string)
    (instruction : TransactionInstruction) (s : ClientState) :
  trace (world (snd (submit_alone title (Ok instruction) s)))
  = trace (world s)
    ++ [CallSendAndConfirmTransaction title (connection (this s))
          {| instructions := [instruction] |} [payer (this s)]].
Proof.
  unfold submit_alone.
  destruct (sendAndConfirmTransaction_answer _ _ _ _ _); reflexivity.
Qed.

(** C8: [swap], [deposit] and [withdraw] leave the client as it was,
    whether they return a signature or fail: every field keeps its value. *)
Theorem methods_preserve_client (s : ClientState)
    (key1 key2 key3 key4 : PublicKey) (amount1 amount2 amount3 : Amount) :
  this (snd (swap key1 key2 key3 key4 amount1 amount2 s)) = this s
  /\ this (snd (deposit key1 key2 key3 amount1 amount2 amount3 s)) = this s
  /\ this (snd (withdraw key1 key2 key3 amount1 amount2 amount3 s)) = this s.
Proof.
  rewrite swap_paths, deposit_paths, withdraw_paths.
  repeat split; apply submit_alone_this.
Qed.

End Methods.

(** ** Creating a pool *)

Section Create.

Context {C : Collaborators}.

Variables (conn : Connection) (feePayer stableSwapAccount : Account).
Variables (auth tokA tokB pool mA mB tokPool swapPid tokPid : PublicKey).
Variables (nonce amp feeN feeD : Z).

(** When the rent query is answered and the encoder accepts the arguments,
    [createStableSwap] makes two I/O calls, the rent query and one
    submission, and returns according to the answer to the submission. *)
Lemma createStableSwap_submits (w : World) (balance : Z) (l1 : Ledger)
    (init : TransactionInstruction) :
  getMinimumBalanceForRentExemption_answer conn
    (layout.span StableSwapLayout) (ledger w) = (Ok balance, l1) ->
  instructions.createInitSwapInstruction TOKEN_PROGRAM_ID stableSwapAccount
    auth tokA tokB pool tokPool swapPid nonce (Num amp) (Num feeN) (Num feeD)
  = Ok init ->
  let transaction :=
    {| instructions :=
         [ SystemProgram_createAccount
             {| fromPubkey := publicKey feePayer;
                newAccountPubkey := publicKey stableSwapAccount;
                lamports := balance;
                space := layout.span StableSwapLayout;
                ownerProgramId := swapPid |};
           init ] |} in
  createStableSwap conn feePayer stableSwapAccount auth tokA tokB pool mA mB
    tokPool swapPid tokPid nonce amp feeN feeD w
  = (match fst (sendAndConfirmTransaction_answer
                  "createAccount and InitializeSwap" conn transaction
                  [feePayer; stableSwapAccount] l1) with
     | Ok _ =>
         Ok (created conn feePayer stableSwapAccount auth tokA tokB pool mA mB
               swapPid tokPid amp feeN feeD)
     | Throw e => Throw e
     end,
     {| ledger :=
          snd (sendAndConfirmTransaction_answer
                 "createAccount and InitializeSwap" conn transaction
                 [feePayer; stableSwapAccount] l1);
        trace :=
          trace w
          ++ [ CallGetMinimumBalanceForRentExemption conn
                 (layout.span StableSwapLayout);
               CallSendAndConfirmTransaction
                 "createAccount and InitializeSwap" conn transaction
                 [feePayer; stableSwapAccount] ] |}).
Proof.
  intros Hrent Hinit transaction. rewrite createStableSwap_paths, Hinit.
  unfold getMinBalanceRentForExemptStableSwap,
    getMinimumBalanceForRentExemption, sendAndConfirmTransaction, perform.
  rewrite Hrent. cbn [ledger trace]. fold transaction.
  destruct (sendAndConfirmTransaction_answer _ _ transaction _ l1)
    as [[sig | e] l2]; cbn [fst snd]; rewrite <- app_assoc; reflexivity.
Qed.

(** C6: a call of [createStableSwap] whose rent query is answered and whose
    numeric arguments the encoder accepts submits exactly one transaction,
    made of the system create-account instruction (space = the span of the
    layout, owner = the swap program id, lamports = the answer of the rent
    query for that span) followed by the initialize instruction, signed by
    the payer and the new pool account; when it succeeds the client it
    returns holds the fields supplied as arguments. *)
Theorem createStableSwap_transaction (w : World) (balance : Z) (l1 : Ledger) :
  getMinimumBalanceForRentExemption_answer conn
    (layout.span StableSwapLayout) (ledger w) = (Ok balance, l1) ->
  0 <= nonce <= 255 ->
  Forall (fun v => 0 <= v <= 2 ^ 64 - 1) [amp; feeN; feeD] ->
  exists init,
    instructions.createInitSwapInstruction TOKEN_PROGRAM_ID stableSwapAccount
      auth tokA tokB pool tokPool swapPid nonce (Num amp) (Num feeN)
      (Num feeD) = Ok init /\
    let transaction :=
      {| instructions :=
           [ SystemProgram_createAccount
               {| fromPubkey := publicKey feePayer;
                  newAccountPubkey := publicKey stableSwapAccount;
                  lamports := balance;
                  space := layout.span StableSwapLayout;
                  ownerProgramId := swapPid |};
             init ] |} in
    let outcome :=
      createStableSwap conn feePayer stableSwapAccount auth tokA tokB pool
        mA mB tokPool swapPid tokPid nonce amp feeN feeD w in
    trace (snd outcome)
    = trace w
      ++ [ CallGetMinimumBalanceForRentExemption conn
             (layout.span StableSwapLayout);
           CallSendAndConfirmTransaction "createAccount and InitializeSwap"
             conn transaction [feePayer; stableSwapAccount] ] /\
    (forall c, fst outcome = Ok c ->
       c = new_StableSwap conn (publicKey stableSwapAccount) swapPid tokPid
             pool auth tokA tokB mA mB (u64.new_Numberu64 amp)
             (u64.new_Numberu64 feeN) (u64.new_Numberu64 feeD) feePayer) /\
    (forall e, fst outcome = Throw e <->
       fst (sendAndConfirmTransaction_answer
              "createAccount and InitializeSwap" conn transaction
              [feePayer; stableSwapAccount] l1) = Throw e).
Proof.
  intros Hrent Hnonce Hamounts.
  assert (Hinit := createInitSwapInstruction_Ok auth tokA tokB pool tokPool
                     swapPid TOKEN_PROGRAM_ID stableSwapAccount nonce
                     (Num amp) (Num feeN) (Num feeD) Hnonce).
  cbn [Amount_value] in Hinit.
  assert (Hnum : Forall (fun a => 0 <= Amount_value a <= 2 ^ 64 - 1)
                   [Num amp; Num feeN; Num feeD])
    by (amounts; repeat apply Forall_cons; try apply Forall_nil; assumption).
  specialize (Hinit Hnum).
  eexists. split; [ exact Hinit | ].
  cbv zeta. rewrite (createStableSwap_submits w balance l1 _ Hrent Hinit).
  cbn [fst snd trace].
  destruct (sendAndConfirmTransaction_answer _ _ _ _ l1) as [[sig | e0] l2];
    cbn [fst]; unfold created; repeat split; intros; congruence.
Qed.

(** With an amount out of range [createStableSwap] fails once the rent
    query is answered: the encoder throws and nothing is submitted. *)
Lemma createStableSwap_out_of_range (w : World) (balance : Z) (l1 : Ledger) :
  getMinimumBalanceForRentExemption_answer conn
    (layout.span StableSwapLayout) (ledger w) = (Ok balance, l1) ->
  Exists (fun v => v < 0 \/ v > 2 ^ 64 - 1) [amp; feeN; feeD] ->
  createStableSwap conn feePayer stableSwapAccount auth tokA tokB pool mA mB
    tokPool swapPid tokPid nonce amp feeN feeD w
  = (Throw (instructions.ValueOutOfRangeError "initialize"),
     {| ledger := l1;
        trace :=
          trace w
          ++ [CallGetMinimumBalanceForRentExemption conn
                (layout.span StableSwapLayout)] |}).
Proof.
  intros Hrent Hamounts. rewrite createStableSwap_paths.
  unfold getMinBalanceRentForExemptStableSwap,
    getMinimumBalanceForRentExemption, perform.
  rewrite Hrent.
  rewrite createInitSwapInstruction_Throw; [ reflexivity | ].
  amounts;
    solve [ apply Exists_cons_hd; assumption
          | apply Exists_cons_tl, Exists_cons_hd; assumption
          | apply Exists_cons_tl, Exists_cons_tl, Exists_cons_hd; assumption ].
Qed.

End Create.

(** ** Account references, payloads and ranges *)

(** Settles what an encoder returned: every amount was encoded or the call
    threw. *)
Ltac returned :=
  repeat match goal with
    | |- context [instructions.encode_u64 ?op ?a] =>
        destruct (encode_u64_cases op a) as [-> | ->];
        cbn [instructions.bind_result]
    | |- context [instructions.encode_u8 ?op ?n] =>
        destruct (encode_u8_cases op n) as [-> | ->];
        cbn [instructions.bind_result]
    end;
  try discriminate;
  let H := fresh in intros H; injection H as <-; reflexivity.

Section Wire.

Context {C : Collaborators}.

(** C2: the account references of each of the four instructions are those
    of §4.2, in number, order and writability, both as the encoder returns
    them and as the client submits them; a swap carries the 7 references
    pool, authority, userSource (write), poolSource (write), poolDestination
    (write), userDestination (write), tokenProgramId. *)
Theorem account_references :
  (forall tokenProgram poolAccount auth tokA tokB poolMint destination pid
          nonce amp feeN feeD i,
      instructions.createInitSwapInstruction tokenProgram poolAccount auth
        tokA tokB poolMint destination pid nonce amp feeN feeD = Ok i ->
      references i
      = [ (publicKey poolAccount, true); (auth, false); (tokA, false);
          (tokB, false); (poolMint, true); (destination, true);
          (tokenProgram, false) ])
  /\ (forall pool auth userSource poolSource poolDestination userDestination
             pid tokenProgram amountIn minimumAmountOut i,
      instructions.swapInstruction pool auth userSource poolSource
        poolDestination userDestination pid tokenProgram amountIn
        minimumAmountOut = Ok i ->
      List.length (keys i) = 7%nat /\
      references i
      = [ (pool, false); (auth, false); (userSource, true);
          (poolSource, true); (poolDestination, true);
          (userDestination, true); (tokenProgram, false) ])
  /\ (forall pool auth userA userB poolA poolB poolMint destination pid
             tokenProgram a b m i,
      instructions.depositInstruction pool auth userA userB poolA poolB
        poolMint destination pid tokenProgram a b m = Ok i ->
      references i
      = [ (pool, false); (auth, false); (userA, true); (userB, true);
          (poolA, true); (poolB, true); (poolMint, true);
          (destination, true); (tokenProgram, false) ])
  /\ (forall pool auth poolMint source poolA poolB userA userB pid
             tokenProgram p a b i,
      instructions.withdrawInstruction pool auth poolMint source poolA poolB
        userA userB pid tokenProgram p a b = Ok i ->
      references i
      = [ (pool, false); (auth, false); (poolMint, true); (source, true);
          (poolA, true); (poolB, true); (userA, true); (userB, true);
          (tokenProgram, false) ])
  /\ (forall s userSource poolSource poolDestination userDestination
             amountIn minimumAmountOut,
      Forall (fun a => 0 <= Amount_value a <= 2 ^ 64 - 1)
        [amountIn; minimumAmountOut] ->
      exists i,
        trace (world (snd (swap userSource poolSource poolDestination
                             userDestination amountIn minimumAmountOut s)))
        = trace (world s)
          ++ [CallSendAndConfirmTransaction "swap" (connection (this s))
                {| instructions := [i] |} [payer (this s)]] /\
        references i
        = [ (stableSwap (this s), false); (authority (this s), false);
            (userSource, true); (poolSource, true); (poolDestination, true);
            (userDestination, true); (tokenProgramId (this s), false) ])
  /\ (forall s userAccountA userAccountB poolAccount a b m,
      Forall (fun a => 0 <= Amount_value a <= 2 ^ 64 - 1) [a; b; m] ->
      exists i,
        trace (world (snd (deposit userAccountA userAccountB poolAccount
                             a b m s)))
        = trace (world s)
          ++ [CallSendAndConfirmTransaction "deposit" (connection (this s))
                {| instructions := [i] |} [payer (this s)]] /\
        references i
        = [ (stableSwap (this s), false); (authority (this s), false);
            (userAccountA, true); (userAccountB, true);
            (tokenAccountA (this s), true); (tokenAccountB (this s), true);
            (poolToken (this s), true); (poolAccount, true);
            (tokenProgramId (this s), false) ])
  /\ (forall s userAccountA userAccountB poolAccount p a b,
      Forall (fun a => 0 <= Amount_value a <= 2 ^ 64 - 1) [p; a; b] ->
      exists i,
        trace (world (snd (withdraw userAccountA userAccountB poolAccount
                             p a b s)))
        = trace (world s)
          ++ [CallSendAndConfirmTransaction "withdraw" (connection (this s))
                {| instructions := [i] |} [payer (this s)]] /\
        references i
        = [ (stableSwap (this s), false); (authority (this s), false);
            (poolToken (this s), true); (poolAccount, true);
            (tokenAccountA (this s), true); (tokenAccountB (this s), true);
            (userAccountA, true); (userAccountB, true);
            (tokenProgramId (this s), false) ])
  /\ (forall conn feePayer stableSwapAccount auth tokA tokB pool mA mB
             tokPool swapPid tokPid nonce amp feeN feeD w balance l1,
      getMinimumBalanceForRentExemption_answer conn
        (layout.span StableSwapLayout) (ledger w) = (Ok balance, l1) ->
      0 <= nonce <= 255 ->
      Forall (fun v => 0 <= v <= 2 ^ 64 - 1) [amp; feeN; feeD] ->
      exists allocate i,
        trace (snd (createStableSwap conn feePayer stableSwapAccount auth
                      tokA tokB pool mA mB tokPool swapPid tokPid nonce amp
                      feeN feeD w))
        = trace w
          ++ [ CallGetMinimumBalanceForRentExemption conn
                 (layout.span StableSwapLayout);
               CallSendAndConfirmTransaction
                 "createAccount and InitializeSwap" conn
                 {| instructions := [allocate; i] |}
                 [feePayer; stableSwapAccount] ] /\
        references i
        = [ (publicKey stableSwapAccount, true); (auth, false);
            (tokA, false); (tokB, false); (pool, true); (tokPool, true);
            (TOKEN_PROGRAM_ID, false) ]).
Proof.
  repeat match goal with |- _ /\ _ => split end.
  - intros *. unfold instructions.createInitSwapInstruction. returned.
  - intros *. unfold instructions.swapInstruction.
    repeat match goal with
      | |- context [instructions.encode_u64 ?op ?a] =>
          destruct (encode_u64_cases op a) as [-> | ->];
          cbn [instructions.bind_result]
      end; try discriminate.
    intros H. injection H as <-. split; reflexivity.
  - intros *. unfold instructions.depositInstruction. returned.
  - intros *. unfold instructions.withdrawInstruction. returned.
  - intros s userSource poolSource poolDestination userDestination
      amountIn minimumAmountOut Hrange.
    rewrite swap_paths, (swapInstruction_Ok _ _ _ _ _ _ _ _ _ _ Hrange).
    eexists. split; [ apply submit_alone_trace | reflexivity ].
  - intros s userAccountA userAccountB poolAccount a b m Hrange.
    rewrite deposit_paths,
      (depositInstruction_Ok _ _ _ _ _ _ _ _ _ _ _ _ _ Hrange).
    eexists. split; [ apply submit_alone_trace | reflexivity ].
  - intros s userAccountA userAccountB poolAccount p a b Hrange.
    rewrite withdraw_paths,
      (withdrawInstruction_Ok _ _ _ _ _ _ _ _ _ _ _ _ _ Hrange).
    eexists. split; [ apply submit_alone_trace | reflexivity ].
  - intros conn feePayer stableSwapAccount auth tokA tokB pool mA mB
      tokPool swapPid tokPid nonce amp feeN feeD w balance l1
      Hrent Hnonce Hamounts.
    assert (Hnum : Forall (fun a => 0 <= Amount_value a <= 2 ^ 64 - 1)
                     [Num amp; Num feeN; Num feeD])
      by (amounts; repeat apply Forall_cons; try apply Forall_nil;
          assumption).
    pose proof (createInitSwapInstruction_Ok auth tokA tokB pool tokPool
                  swapPid TOKEN_PROGRAM_ID stableSwapAccount nonce
                  (Num amp) (Num feeN) (Num feeD) Hnonce Hnum) as Hinit.
    rewrite (createStableSwap_submits conn feePayer stableSwapAccount auth
               tokA tokB pool mA mB tokPool swapPid tokPid nonce amp feeN
               feeD w balance l1 _ Hrent Hinit).
    cbn [snd trace]. eexists. eexists. split; reflexivity.
Qed.

(** C3: the swap instruction for amountIn = 1000 and minimumAmountOut = 990
    carries 17 bytes of data: the tag 0x01, the 8 little-endian bytes of
    1000 and the 8 little-endian bytes of 990; so it is whether the amounts
    are plain numbers or wrapped 64-bit values. *)
Theorem swap_payload_1000_990 :
  forall pool auth userSource poolSource poolDestination userDestination
         pid tokenProgram amountIn minimumAmountOut,
    In amountIn [Num 1000; U64 (u64.new_Numberu64 1000)] ->
    In minimumAmountOut [Num 990; U64 (u64.new_Numberu64 990)] ->
    exists i,
      instructions.swapInstruction pool auth userSource poolSource
        poolDestination userDestination pid tokenProgram amountIn
        minimumAmountOut = Ok i /\
      data i
      = [ x01;
          xe8; x03; x00; x00; x00; x00; x00; x00;
          xde; x03; x00; x00; x00; x00; x00; x00 ] /\
      data i = [x01] ++ le_split 8 1000 ++ le_split 8 990 /\
      List.length (data i) = 17%nat.
Proof.
  intros * Hin Hout. cbn [In] in Hin, Hout.
  destruct Hin as [<- | [<- | []]]; destruct Hout as [<- | [<- | []]];
    eexists; repeat split.
Qed.

(** C7: each encoder operation whose amounts include a negative value or a
    value above 2^64-1 fails with ValueOutOfRangeError, and the client
    method built on it then returns that failure with the world untouched
    (no I/O call is made); amounts within 0..2^64-1 are accepted. *)
Theorem amounts_out_of_range_rejected :
  (forall tokenProgram poolAccount auth tokA tokB poolMint destination pid
          nonce amp feeN feeD,
      (Exists (fun a => Amount_value a < 0 \/ Amount_value a > 2 ^ 64 - 1)
         [amp; feeN; feeD] ->
       instructions.createInitSwapInstruction tokenProgram poolAccount auth
         tokA tokB poolMint destination pid nonce amp feeN feeD
       = Throw (instructions.ValueOutOfRangeError "initialize"))
      /\ (0 <= nonce <= 255 ->
          Forall (fun a => 0 <= Amount_value a <= 2 ^ 64 - 1)
            [amp; feeN; feeD] ->
          exists i,
            instructions.createInitSwapInstruction tokenProgram poolAccount
              auth tokA tokB poolMint destination pid nonce amp feeN feeD
            = Ok i))
  /\ (forall pool auth userSource poolSource poolDestination userDestination
             pid tokenProgram amountIn minimumAmountOut,
      (Exists (fun a => Amount_value a < 0 \/ Amount_value a > 2 ^ 64 - 1)
         [amountIn; minimumAmountOut] ->
       instructions.swapInstruction pool auth userSource poolSource
         poolDestination userDestination pid tokenProgram amountIn
         minimumAmountOut
       = Throw (instructions.ValueOutOfRangeError "swap"))
      /\ (Forall (fun a => 0 <= Amount_value a <= 2 ^ 64 - 1)
            [amountIn; minimumAmountOut] ->
          exists i,
            instructions.swapInstruction pool auth userSource poolSource
              poolDestination userDestination pid tokenProgram amountIn
              minimumAmountOut = Ok i))
  /\ (forall pool auth userA userB poolA poolB poolMint destination pid
             tokenProgram a b m,
      (Exists (fun a => Amount_value a < 0 \/ Amount_value a > 2 ^ 64 - 1)
         [a; b; m] ->
       instructions.depositInstruction pool auth userA userB poolA poolB
         poolMint destination pid tokenProgram a b m
       = Throw (instructions.ValueOutOfRangeError "deposit"))
      /\ (Forall (fun a => 0 <= Amount_value a <= 2 ^ 64 - 1) [a; b; m] ->
          exists i,
            instructions.depositInstruction pool auth userA userB poolA
              poolB poolMint destination pid tokenProgram a b m = Ok i))
  /\ (forall pool auth poolMint source poolA poolB userA userB pid
             tokenProgram p a b,
      (Exists (fun a => Amount_value a < 0 \/ Amount_value a > 2 ^ 64 - 1)
         [p; a; b] ->
       instructions.withdrawInstruction pool auth poolMint source poolA
         poolB userA userB pid tokenProgram p a b
       = Throw (instructions.ValueOutOfRangeError "withdraw"))
      /\ (Forall (fun a => 0 <= Amount_value a <= 2 ^ 64 - 1) [p; a; b] ->
          exists i,
            instructions.withdrawInstruction pool auth poolMint source poolA
              poolB userA userB pid tokenProgram p a b = Ok i))
  /\ (forall s userSource poolSource poolDestination userDestination
             amountIn minimumAmountOut,
      Exists (fun a => Amount_value a < 0 \/ Amount_value a > 2 ^ 64 - 1)
        [amountIn; minimumAmountOut] ->
      swap userSource poolSource poolDestination userDestination amountIn
        minimumAmountOut s
      = (Throw (instructions.ValueOutOfRangeError "swap"), s))
  /\ (forall s userAccountA userAccountB poolAccount a b m,
      Exists (fun a => Amount_value a < 0 \/ Amount_value a > 2 ^ 64 - 1)
        [a; b; m] ->
      deposit userAccountA userAccountB poolAccount a b m s
      = (Throw (instructions.ValueOutOfRangeError "deposit"), s))
  /\ (forall s userAccountA userAccountB poolAccount p a b,
      Exists (fun a => Amount_value a < 0 \/ Amount_value a > 2 ^ 64 - 1)
        [p; a; b] ->
      withdraw userAccountA userAccountB poolAccount p a b s
      = (Throw (instructions.ValueOutOfRangeError "withdraw"), s)).
Proof.
  repeat match goal with
    | |- _ /\ _ => split
    | |- forall _, _ => intro
    end.
  - now apply createInitSwapInstruction_Throw.
  - eexists. now apply createInitSwapInstruction_Ok.
  - now apply swapInstruction_Throw.
  - eexists. now apply swapInstruction_Ok.
  - now apply depositInstruction_Throw.
  - eexists. now apply depositInstruction_Ok.
  - now apply withdrawInstruction_Throw.
  - eexists. now apply withdrawInstruction_Ok.
  - rewrite swap_paths, swapInstruction_Throw by assumption. reflexivity.
  - rewrite deposit_paths, depositInstruction_Throw by assumption.
    reflexivity.
  - rewrite withdraw_paths, withdrawInstruction_Throw by assumption.
    reflexivity.
Qed.

End Wire.

(** * Further properties of the client *)

Section LoadFurther.

Context {C : Collaborators}.

Variables (conn : Connection) (address pid : PublicKey).

(** Whatever its outcome, [loadStableSwap] leaves the world as its fetch
    left it. *)
Lemma loadStableSwap_world (feePayer : Account) (w : World) :
  snd (loadStableSwap conn address pid feePayer w)
  = snd (loadAccount conn address pid w).
Proof.
  rewrite loadStableSwap_paths.
  destruct (loadAccount conn address pid w) as [[blob | e] w'];
    cbn [fst snd]; [ | reflexivity ].
  destruct (layout.decode StableSwapLayout blob) as [d | e];
    [ | reflexivity ].
  destruct (layout.isInitialized d); [ | reflexivity ].
  destruct (findProgramAddress [toBuffer address] pid) as [[derived n] | ];
    reflexivity.
Qed.

(** X1: on every path, success or failure, [loadStableSwap] makes exactly
    one I/O call, the fetch of the account at [address]: it queries no rent
    and submits no transaction, and the ledger is as the fetch left it. *)
Theorem loadStableSwap_one_fetch (feePayer : Account) (w : World) :
  trace (snd (loadStableSwap conn address pid feePayer w))
  = trace w ++ [CallLoadAccount conn address pid]
  /\ ledger (snd (loadStableSwap conn address pid feePayer w))
     = snd (loadAccount_answer conn address pid (ledger w)).
Proof.
  rewrite loadStableSwap_world. unfold loadAccount, perform.
  destruct (loadAccount_answer conn address pid (ledger w)) as [r l].
  split; reflexivity.
Qed.

(** X2: [loadStableSwap] passes failures on: a failed fetch and a failed
    decoding reach the caller as they are, and an initialized pool whose
    authority cannot be derived fails with the error of
    [findProgramAddress]; in each case no client is returned. *)
Theorem loadStableSwap_passes_failures_on (feePayer : Account) (w : World) :
  (forall e,
      fst (loadAccount conn address pid w) = Throw e ->
      loadStableSwap conn address pid feePayer w
      = (Throw e, snd (loadAccount conn address pid w)))
  /\ (forall blob e,
      fst (loadAccount conn address pid w) = Ok blob ->
      layout.decode StableSwapLayout blob = Throw e ->
      loadStableSwap conn address pid feePayer w
      = (Throw e, snd (loadAccount conn address pid w)))
  /\ (forall blob d,
      fst (loadAccount conn address pid w) = Ok blob ->
      layout.decode StableSwapLayout blob = Ok d ->
      layout.isInitialized d = true ->
      findProgramAddress [toBuffer address] pid = None ->
      loadStableSwap conn address pid feePayer w
      = (Throw (Error "Unable to find a viable program address nonce"),
         snd (loadAccount conn address pid w))).
Proof.
  rewrite loadStableSwap_paths.
  destruct (loadAccount conn address pid w) as [r w']. cbn [fst snd].
  repeat split.
  - intros e ->. reflexivity.
  - intros blob e -> ->. reflexivity.
  - intros blob d -> -> -> ->. reflexivity.
Qed.

(** X3: the payer given to [loadStableSwap] is only stored: with another
    payer the call does the same I/O, fails with the same error, and on
    success returns the same client but for its [payer]; the connection of
    the client is the one given. *)
Theorem loadStableSwap_payer_only_stored (payer1 payer2 : Account)
    (w : World) :
  snd (loadStableSwap conn address pid payer2 w)
  = snd (loadStableSwap conn address pid payer1 w)
  /\ fst (loadStableSwap conn address pid payer2 w)
     = match fst (loadStableSwap conn address pid payer1 w) with
       | Ok c =>
           Ok (new_StableSwap (connection c) (stableSwap c) (swapProgramId c)
                 (tokenProgramId c) (poolToken c) (authority c)
                 (tokenAccountA c) (tokenAccountB c) (mintA c) (mintB c)
                 (ampFactor c) (feeNumerator c) (feeDenominator c) payer2)
       | Throw e => Throw e
       end
  /\ match fst (loadStableSwap conn address pid payer1 w) with
     | Ok c => payer c = payer1 /\ connection c = conn
     | Throw _ => True
     end.
Proof.
  rewrite !loadStableSwap_paths.
  destruct (loadAccount conn address pid w) as [[blob | e] w'];
    [ | cbn; repeat split; reflexivity ].
  destruct (layout.decode StableSwapLayout blob) as [d | e];
    [ | cbn; repeat split; reflexivity ].
  destruct (layout.isInitialized d); [ | cbn; repeat split; reflexivity ].
  destruct (findProgramAddress [toBuffer address] pid) as [[derived n] | ];
    cbn; repeat split; reflexivity.
Qed.

End LoadFurther.

Section CreateFurther.

Context {C : Collaborators}.

Variables (conn : Connection) (feePayer stableSwapAccount : Account).
Variables (auth tokA tokB pool tokPool swapPid : PublicKey).
Variables (nonce amp feeN feeD : Z).

(** X4: on every path [createStableSwap] first queries the rent for the
    span of the layout, never fetches an account and submits at most one
    transaction: either it fails having made the rent query only, or it has
    made the rent query and one submission of a transaction of two
    instructions signed by the payer and the new pool account. *)
Theorem createStableSwap_io_footprint (mA mB tokPid : PublicKey) (w : World) :
  let outcome :=
    createStableSwap conn feePayer stableSwapAccount auth tokA tokB pool mA
      mB tokPool swapPid tokPid nonce amp feeN feeD w in
  (exists e,
      fst outcome = Throw e /\
      trace (snd outcome)
      = trace w
        ++ [CallGetMinimumBalanceForRentExemption conn
              (layout.span StableSwapLayout)])
  \/ (exists allocate init,
        trace (snd outcome)
        = trace w
          ++ [ CallGetMinimumBalanceForRentExemption conn
                 (layout.span StableSwapLayout);
               CallSendAndConfirmTransaction
                 "createAccount and InitializeSwap" conn
                 {| instructions := [allocate; init] |}
                 [feePayer; stableSwapAccount] ]).
Proof.
  cbv zeta. rewrite createStableSwap_paths.
  unfold getMinBalanceRentForExemptStableSwap,
    getMinimumBalanceForRentExemption, sendAndConfirmTransaction, perform.
  destruct (getMinimumBalanceForRentExemption_answer conn
              (layout.span StableSwapLayout) (ledger w))
    as [[balance | e] l1]; cbn [fst snd ledger trace].
  - destruct (instructions.createInitSwapInstruction _ _ _ _ _ _ _ _ _ _ _ _)
      as [init | e]; cbn [fst snd trace].
    + right.
      destruct (sendAndConfirmTransaction_answer _ _ _ _ l1)
        as [[sig | e] l2]; cbn [fst snd trace]; rewrite <- app_assoc;
        eexists; eexists; reflexivity.
    + left. exists e. auto.
  - left. exists e. auto.
Qed.

(** X5: [createStableSwap] fails before it submits anything when the rent
    query fails, and when the rent query is answered but building the
    initialize instruction throws: the failure reaches the caller as it is,
    and the only I/O call made is the rent query. *)
Theorem createStableSwap_fails_before_submitting (mA mB tokPid : PublicKey)
    (w : World) (e : JsError) :
  (forall l1,
      getMinimumBalanceForRentExemption_answer conn
        (layout.span StableSwapLayout) (ledger w) = (Throw e, l1) ->
      createStableSwap conn feePayer stableSwapAccount auth tokA tokB pool
        mA mB tokPool swapPid tokPid nonce amp feeN feeD w
      = (Throw e,
         {| ledger := l1;
            trace :=
              trace w
              ++ [CallGetMinimumBalanceForRentExemption conn
                    (layout.span StableSwapLayout)] |}))
  /\ (forall balance l1,
      getMinimumBalanceForRentExemption_answer conn
        (layout.span StableSwapLayout) (ledger w) = (Ok balance, l1) ->
      instructions.createInitSwapInstruction TOKEN_PROGRAM_ID
        stableSwapAccount auth tokA tokB pool tokPool swapPid nonce
        (Num amp) (Num feeN) (Num feeD) = Throw e ->
      createStableSwap conn feePayer stableSwapAccount auth tokA tokB pool
        mA mB tokPool swapPid tokPid nonce amp feeN feeD w
      = (Throw e,
         {| ledger := l1;
            trace :=
              trace w
              ++ [CallGetMinimumBalanceForRentExemption conn
                    (layout.span StableSwapLayout)] |})).
Proof.
  rewrite createStableSwap_paths.
  unfold getMinBalanceRentForExemptStableSwap,
    getMinimumBalanceForRentExemption, perform.
  split.
  - intros l1 ->. reflexivity.
  - intros balance l1 -> ->. reflexivity.
Qed.

(** X6: the mints and the token-program id given to [createStableSwap] are
    only stored in the returned client: they reach neither the transaction
    nor any other I/O call.  With other values for them the call leaves the
    same world, fails with the same error and otherwise returns the client
    made of its own arguments. *)
Theorem createStableSwap_mints_only_stored
    (mA mB tokPid mA' mB' tokPid' : PublicKey) (w : World) :
  snd (createStableSwap conn feePayer stableSwapAccount auth tokA tokB pool
         mA' mB' tokPool swapPid tokPid' nonce amp feeN feeD w)
  = snd (createStableSwap conn feePayer stableSwapAccount auth tokA tokB pool
           mA mB tokPool swapPid tokPid nonce amp feeN feeD w)
  /\ fst (createStableSwap conn feePayer stableSwapAccount auth tokA tokB
            pool mA' mB' tokPool swapPid tokPid' nonce amp feeN feeD w)
     = match fst (createStableSwap conn feePayer stableSwapAccount auth tokA
                    tokB pool mA mB tokPool swapPid tokPid nonce amp feeN
                    feeD w) with
       | Ok _ =>
           Ok (new_StableSwap conn (publicKey stableSwapAccount) swapPid
                 tokPid' pool auth tokA tokB mA' mB'
                 (u64.new_Numberu64 amp) (u64.new_Numberu64 feeN)
                 (u64.new_Numberu64 feeD) feePayer)
       | Throw e => Throw e
       end.
Proof.
  rewrite !createStableSwap_paths.
  destruct (getMinBalanceRentForExemptStableSwap conn w)
    as [[balance | e] w1]; [ | split; reflexivity ].
  destruct (instructions.createInitSwapInstruction _ _ _ _ _ _ _ _ _ _ _ _)
    as [init | e]; [ | split; reflexivity ].
  destruct (sendAndConfirmTransaction _ _ _ _ w1) as [[sig | e] w2];
    split; reflexivity.
Qed.

(** X7: loading the pool right after creating it gives a client for the
    same pool address and program id whose authority is the derived one; it
    is the authority of the created client exactly when the caller of
    [createStableSwap] supplied the derived address. *)
Theorem create_then_load_authority (mA mB tokPid : PublicKey) (w : World)
    (conn' : Connection) (feePayer' : Account) (c c' : StableSwap) :
  fst (createStableSwap conn feePayer stableSwapAccount auth tokA tokB pool
         mA mB tokPool swapPid tokPid nonce amp feeN feeD w) = Ok c ->
  fst (loadStableSwap conn' (stableSwap c) (swapProgramId c) feePayer'
         (snd (createStableSwap conn feePayer stableSwapAccount auth tokA
                 tokB pool mA mB tokPool swapPid tokPid nonce amp feeN feeD
                 w))) = Ok c' ->
  stableSwap c' = publicKey stableSwapAccount
  /\ swapProgramId c' = swapPid
  /\ deriveAuthority (publicKey stableSwapAccount) swapPid
     = Some (authority c')
  /\ (authority c' = authority c <->
      deriveAuthority (publicKey stableSwapAccount) swapPid = Some auth).
Proof.
  rewrite createStableSwap_paths.
  destruct (getMinBalanceRentForExemptStableSwap conn w)
    as [[balance | e] w1]; [ | discriminate ].
  destruct (instructions.createInitSwapInstruction _ _ _ _ _ _ _ _ _ _ _ _)
    as [init | e]; [ | discriminate ].
  destruct (sendAndConfirmTransaction _ _ _ _ w1) as [[sig | e] w2];
    [ | discriminate ].
  cbn [fst snd]. intros Hc. injection Hc as <-. cbn [stableSwap swapProgramId
    authority created].
  intros Hload. apply loadStableSwap_Ok_inv in Hload.
  destruct Hload as (blob & d & derived & _ & _ & _ & Hderive & ->).
  cbn [stableSwap swapProgramId authority loaded].
  repeat split; try assumption.
  - intros ->. assumption.
  - rewrite Hderive. intros H. injection H as ->. reflexivity.
Qed.

End CreateFurther.

Section MethodsFurther.

Context {C : Collaborators}.

(** A built instruction is submitted alone, and the answer returned. *)
Lemma submit_alone_Ok (title : string) (i : TransactionInstruction)
    (s : ClientState) :
  submit_alone title (Ok i) s
  = (fst (sendAndConfirmTransaction title (connection (this s))
            {| instructions := [i] |} [payer (this s)] (world s)),
     {| this := this s;
        world :=
          snd (sendAndConfirmTransaction title (connection (this s))
                 {| instructions := [i] |} [payer (this s)] (world s)) |}).
Proof.
  unfold submit_alone, sendAndConfirmTransaction, perform.
  destruct (sendAndConfirmTransaction_answer _ _ _ _ _); reflexivity.
Qed.

(** X8: when its instruction is built, a method returns what
    [sendAndConfirmTransaction] answers to the one submission it makes: the
    signature, or the failure as it is; it neither retries nor wraps the
    error, and the ledger is as the submission left it. *)
Theorem methods_return_the_answer (s : ClientState)
    (key1 key2 key3 key4 : PublicKey) (amount1 amount2 amount3 : Amount) :
  Forall (fun a => 0 <= Amount_value a <= 2 ^ 64 - 1)
    [amount1; amount2; amount3] ->
  (exists i,
      swap key1 key2 key3 key4 amount1 amount2 s
      = (fst (sendAndConfirmTransaction "swap" (connection (this s))
                {| instructions := [i] |} [payer (this s)] (world s)),
         {| this := this s;
            world :=
              snd (sendAndConfirmTransaction "swap" (connection (this s))
                     {| instructions := [i] |} [payer (this s)]
                     (world s)) |}))
  /\ (exists i,
      deposit key1 key2 key3 amount1 amount2 amount3 s
      = (fst (sendAndConfirmTransaction "deposit" (connection (this s))
                {| instructions := [i] |} [payer (this s)] (world s)),
         {| this := this s;
            world :=
              snd (sendAndConfirmTransaction "deposit" (connection (this s))
                     {| instructions := [i] |} [payer (this s)]
                     (world s)) |}))
  /\ (exists i,
      withdraw key1 key2 key3 amount1 amount2 amount3 s
      = (fst (sendAndConfirmTransaction "withdraw" (connection (this s))
                {| instructions := [i] |} [payer (this s)] (world s)),
         {| this := this s;
            world :=
              snd (sendAndConfirmTransaction "withdraw" (connection (this s))
                     {| instructions := [i] |} [payer (this s)]
                     (world s)) |})).
Proof.
  intros Hrange.
  assert (H12 : Forall (fun a => 0 <= Amount_value a <= 2 ^ 64 - 1)
                  [amount1; amount2])
    by (amounts; repeat apply Forall_cons; try apply Forall_nil; assumption).
  rewrite swap_paths, deposit_paths, withdraw_paths.
  rewrite (swapInstruction_Ok _ _ _ _ _ _ _ _ _ _ H12).
  rewrite (depositInstruction_Ok _ _ _ _ _ _ _ _ _ _ _ _ _ Hrange).
  rewrite (withdrawInstruction_Ok _ _ _ _ _ _ _ _ _ _ _ _ _ Hrange).
  repeat split; eexists; apply submit_alone_Ok.
Qed.

(** X9: the methods never read the cached mints, amplification factor and
    fee of the client, and [swap] reads neither its pool token nor its token
    accounts: two clients that differ in those fields only give, on the same
    world, the same result and the same world. *)
Theorem methods_ignore_cached_parameters
    (conn : Connection) (pool swapPid tokPid auth : PublicKey)
    (feePayer : Account)
    (poolTok tokA tokB poolTok' tokA' tokB' : PublicKey)
    (mA mB mA' mB' : PublicKey)
    (amp feeN feeD amp' feeN' feeD' : u64.Numberu64)
    (w : World)
    (key1 key2 key3 key4 : PublicKey) (amount1 amount2 amount3 : Amount) :
  let on c := {| this := c; world := w |} in
  let c1 := new_StableSwap conn pool swapPid tokPid poolTok auth tokA tokB
              mA mB amp feeN feeD feePayer in
  let c2 := new_StableSwap conn pool swapPid tokPid poolTok' auth tokA' tokB'
              mA' mB' amp' feeN' feeD' feePayer in
  let c3 := new_StableSwap conn pool swapPid tokPid poolTok auth tokA tokB
              mA' mB' amp' feeN' feeD' feePayer in
  (fst (swap key1 key2 key3 key4 amount1 amount2 (on c2))
   = fst (swap key1 key2 key3 key4 amount1 amount2 (on c1))
   /\ world (snd (swap key1 key2 key3 key4 amount1 amount2 (on c2)))
      = world (snd (swap key1 key2 key3 key4 amount1 amount2 (on c1))))
  /\ (fst (deposit key1 key2 key3 amount1 amount2 amount3 (on c3))
      = fst (deposit key1 key2 key3 amount1 amount2 amount3 (on c1))
      /\ world (snd (deposit key1 key2 key3 amount1 amount2 amount3 (on c3)))
         = world (snd (deposit key1 key2 key3 amount1 amount2 amount3
                         (on c1))))
  /\ (fst (withdraw key1 key2 key3 amount1 amount2 amount3 (on c3))
      = fst (withdraw key1 key2 key3 amount1 amount2 amount3 (on c1))
      /\ world (snd (withdraw key1 key2 key3 amount1 amount2 amount3 (on c3)))
         = world (snd (withdraw key1 key2 key3 amount1 amount2 amount3
                         (on c1)))).
Proof.
  cbv zeta. rewrite !swap_paths, !deposit_paths, !withdraw_paths.
  unfold submit_alone. cbn [this world connection stableSwap swapProgramId
    tokenProgramId poolToken authority tokenAccountA tokenAccountB payer].
  repeat split;
    match goal with
    | |- context [match ?built with Ok _ => _ | Throw _ => _ end] =>
        destruct built; cbn [fst snd world]; [ | reflexivity ]
    end;
    destruct (sendAndConfirmTransaction_answer _ _ _ _ _); reflexivity.
Qed.

(** X10: the methods keep no record of what they submitted: calling [swap]
    (or [deposit], or [withdraw]) twice with the same arguments submits the
    same transaction twice, one submission after the other. *)
Theorem methods_submit_every_call (s : ClientState)
    (key1 key2 key3 key4 : PublicKey) (amount1 amount2 amount3 : Amount) :
  Forall (fun a => 0 <= Amount_value a <= 2 ^ 64 - 1)
    [amount1; amount2; amount3] ->
  (exists i,
      let call := swap key1 key2 key3 key4 amount1 amount2 in
      trace (world (snd (call (snd (call s)))))
      = trace (world s)
        ++ [ CallSendAndConfirmTransaction "swap" (connection (this s))
               {| instructions := [i] |} [payer (this s)];
             CallSendAndConfirmTransaction "swap" (connection (this s))
               {| instructions := [i] |} [payer (this s)] ])
  /\ (exists i,
      let call := deposit key1 key2 key3 amount1 amount2 amount3 in
      trace (world (snd (call (snd (call s)))))
      = trace (world s)
        ++ [ CallSendAndConfirmTransaction "deposit" (connection (this s))
               {| instructions := [i] |} [payer (this s)];
             CallSendAndConfirmTransaction "deposit" (connection (this s))
               {| instructions := [i] |} [payer (this s)] ])
  /\ (exists i,
      let call := withdraw key1 key2 key3 amount1 amount2 amount3 in
      trace (world (snd (call (snd (call s)))))
      = trace (world s)
        ++ [ CallSendAndConfirmTransaction "withdraw" (connection (this s))
               {| instructions := [i] |} [payer (this s)];
             CallSendAndConfirmTransaction "withdraw" (connection (this s))
               {| instructions := [i] |} [payer (this s)] ]).
Proof.
  intros Hrange.
  assert (H12 : Forall (fun a => 0 <= Amount_value a <= 2 ^ 64 - 1)
                  [amount1; amount2])
    by (amounts; repeat apply Forall_cons; try apply Forall_nil; assumption).
  cbv zeta. repeat split; eexists.
  - rewrite !swap_paths, submit_alone_this.
    rewrite (swapInstruction_Ok _ _ _ _ _ _ _ _ _ _ H12).
    rewrite !submit_alone_trace, submit_alone_this, <- app_assoc.
    reflexivity.
  - rewrite !deposit_paths, submit_alone_this.
    rewrite (depositInstruction_Ok _ _ _ _ _ _ _ _ _ _ _ _ _ Hrange).
    rewrite !submit_alone_trace, submit_alone_this, <- app_assoc.
    reflexivity.
  - rewrite !withdraw_paths, submit_alone_this.
    rewrite (withdrawInstruction_Ok _ _ _ _ _ _ _ _ _ _ _ _ _ Hrange).
    rewrite !submit_alone_trace, submit_alone_this, <- app_assoc.
    reflexivity.
Qed.

(** X11: a [swap] on a client just loaded is submitted through the
    connection of the load and signed by its payer, and its instruction
    refers to the address loaded, to the authority derived from it, and to
    the token-program id read from the fetched record. *)
Theorem load_then_swap (conn : Connection) (address pid : PublicKey)
    (feePayer : Account) (w : World) (c : StableSwap)
    (userSource poolSource poolDestination userDestination : PublicKey)
    (amountIn minimumAmountOut : Amount) :
  fst (loadStableSwap conn address pid feePayer w) = Ok c ->
  Forall (fun a => 0 <= Amount_value a <= 2 ^ 64 - 1)
    [amountIn; minimumAmountOut] ->
  exists i blob d derived,
    fst (loadAccount conn address pid w) = Ok blob /\
    layout.decode StableSwapLayout blob = Ok d /\
    deriveAuthority address pid = Some derived /\
    trace (world (snd (swap userSource poolSource poolDestination
                         userDestination amountIn minimumAmountOut
                         {| this := c;
                            world := snd (loadStableSwap conn address pid
                                            feePayer w) |})))
    = trace w
      ++ [ CallLoadAccount conn address pid;
           CallSendAndConfirmTransaction "swap" conn
             {| instructions := [i] |} [feePayer] ] /\
    references i
    = [ (address, false); (derived, false); (userSource, true);
        (poolSource, true); (poolDestination, true);
        (userDestination, true);
        (new_PublicKey (layout.tokenProgramId d), false) ].
Proof.
  intros Hload Hrange.
  assert (Htrace : trace (snd (loadStableSwap conn address pid feePayer w))
                   = trace w ++ [CallLoadAccount conn address pid]).
  { rewrite loadStableSwap_world. unfold loadAccount, perform.
    destruct (loadAccount_answer conn address pid (ledger w)) as [r l].
    reflexivity. }
  apply loadStableSwap_Ok_inv in Hload.
  destruct Hload as (blob & d & derived & Hblob & Hd & _ & Hderive & ->).
  eexists. exists blob, d, derived.
  split; [ exact Hblob | ]. split; [ exact Hd | ].
  split; [ exact Hderive | ].
  rewrite swap_paths.
  cbn [this world loaded connection stableSwap authority swapProgramId
         tokenProgramId payer].
  rewrite (swapInstruction_Ok _ _ _ _ _ _ _ _ _ _ Hrange).
  rewrite submit_alone_trace.
  cbn [this world loaded connection payer].
  rewrite Htrace, <- app_assoc. split; reflexivity.
Qed.

End MethodsFurther.

(** * The properties on the local ledger *)

Import Localnet.

#[local] Existing Instance localnet.

(** C1, as stated, fails: [createStableSwap] returns a client whose
    authority is the address [key x01] its caller supplied, not the address
    derived from the pool account address and the program id.  Called with
    [key x02] instead, for the same pool account and program id, it returns
    a client with that other authority: whatever the derivation is, one of
    the two differs from it. *)
Lemma createStableSwap_authority_not_derived :
  exists c c',
    fst (createStableSwap rpc payerAccount poolAccount (key x01) (key x12)
           (key x13) (key x11) (key x14) (key x15) (key x16) swapProgram
           (key x06) 255 100 4 1000 genesis) = Ok c /\
    deriveAuthority (stableSwap c) (swapProgramId c) = Some (key xf0) /\
    authority c = key x01 /\
    deriveAuthority (stableSwap c) (swapProgramId c) <> Some (authority c) /\
    fst (createStableSwap rpc payerAccount poolAccount (key x02) (key x12)
           (key x13) (key x11) (key x14) (key x15) (key x16) swapProgram
           (key x06) 255 100 4 1000 genesis) = Ok c' /\
    stableSwap c' = stableSwap c /\
    swapProgramId c' = swapProgramId c /\
    authority c' <> authority c.
Proof.
  eexists. eexists. split; [ vm_compute; reflexivity | ].
  split; [ vm_compute; reflexivity | ].
  split; [ vm_compute; reflexivity | ].
  split; [ vm_compute; discriminate | ].
  split; [ vm_compute; reflexivity | ].
  split; [ vm_compute; reflexivity | ].
  split; [ vm_compute; reflexivity | ].
  vm_compute. discriminate.
Qed.

Lemma authority_of_constructed_client_witness :
  fst (loadStableSwap rpc (key xa0) swapProgram payerAccount genesis)
  = Ok client /\
  deriveAuthority (key xa0) swapProgram = Some (authority client) /\
  (exists c,
     fst (createStableSwap rpc payerAccount poolAccount (key x01) (key x12)
            (key x13) (key x11) (key x14) (key x15) (key x16) swapProgram
            (key x06) 255 100 4 1000 genesis) = Ok c /\
     authority c = key x01).
Proof.
  assert (Hload : fst (loadStableSwap rpc (key xa0) swapProgram payerAccount
                         genesis) = Ok client)
    by (vm_compute; reflexivity).
  split; [ exact Hload | ].
  split.
  - apply (proj1 authority_of_constructed_client rpc (key xa0) swapProgram
             payerAccount genesis client Hload).
  - assert (Hcreate :
        fst (createStableSwap rpc payerAccount poolAccount (key x01)
               (key x12) (key x13) (key x11) (key x14) (key x15) (key x16)
               swapProgram (key x06) 255 100 4 1000 genesis)
        = Ok (created rpc payerAccount poolAccount (key x01) (key x12)
                (key x13) (key x11) (key x14) (key x15) swapProgram
                (key x06) 100 4 1000))
      by (vm_compute; reflexivity).
    eexists. split; [ exact Hcreate | ].
    exact (proj2 (proj2 (proj2 authority_of_constructed_client rpc
                           payerAccount poolAccount (key x01) (key x12)
                           (key x13) (key x11) (key x14) (key x15) (key x16)
                           swapProgram (key x06) 255 100 4 1000 genesis _
                           Hcreate))).
Defined.

Lemma account_references_witness :
  Forall (fun a => 0 <= Amount_value a <= 2 ^ 64 - 1) [Num 1000; Num 990] /\
  exists i,
    trace (world (snd (swap (key x21) (key x12) (key x13) (key x22)
                         (Num 1000) (Num 990) start)))
    = [CallSendAndConfirmTransaction "swap" rpc {| instructions := [i] |}
         [payerAccount]] /\
    references i
    = [ (key xa0, false); (key xf0, false); (key x21, true); (key x12, true);
        (key x13, true); (key x22, true); (key x06, false) ].
Proof.
  assert (Hrange : Forall (fun a => 0 <= Amount_value a <= 2 ^ 64 - 1)
                     [Num 1000; Num 990])
    by (repeat constructor; cbn; lia).
  split; [ exact Hrange | ].
  destruct account_references as (_ & _ & _ & _ & Hswap & _).
  exact (Hswap start (key x21) (key x12) (key x13) (key x22) (Num 1000)
           (Num 990) Hrange).
Defined.

Lemma swap_payload_1000_990_witness :
  In (Num 1000) [Num 1000; U64 (u64.new_Numberu64 1000)] /\
  In (U64 (u64.new_Numberu64 990)) [Num 990; U64 (u64.new_Numberu64 990)] /\
  exists i,
    instructions.swapInstruction (key xa0) (key xf0) (key x21) (key x12)
      (key x13) (key x22) swapProgram (key x06) (Num 1000)
      (U64 (u64.new_Numberu64 990)) = Ok i /\
    List.length (data i) = 17%nat.
Proof.
  assert (Hin : In (Num 1000) [Num 1000; U64 (u64.new_Numberu64 1000)])
    by (cbn; auto).
  assert (Hout : In (U64 (u64.new_Numberu64 990))
                   [Num 990; U64 (u64.new_Numberu64 990)])
    by (cbn; auto).
  split; [ exact Hin | ]. split; [ exact Hout | ].
  destruct (swap_payload_1000_990 (key xa0) (key xf0) (key x21) (key x12)
              (key x13) (key x22) swapProgram (key x06) _ _ Hin Hout)
    as (i & Hi & _ & _ & Hlen).
  exists i. auto.
Defined.

Lemma loadStableSwap_initialization_flag_witness :
  loadAccount rpc (key xb0) swapProgram genesis
  = (Ok (record x00),
     {| ledger := ledger genesis;
        trace := [CallLoadAccount rpc (key xb0) swapProgram] |}) /\
  layout.decode StableSwapLayout (record x00) = Ok (fields false) /\
  loadStableSwap rpc (key xb0) swapProgram payerAccount genesis
  = (Throw PoolNotInitializedError,
     {| ledger := ledger genesis;
        trace := [CallLoadAccount rpc (key xb0) swapProgram] |}).
Proof.
  assert (Hblob : loadAccount rpc (key xb0) swapProgram genesis
                  = (Ok (record x00),
                     {| ledger := ledger genesis;
                        trace := [CallLoadAccount rpc (key xb0)
                                    swapProgram] |}))
    by reflexivity.
  assert (Hd : layout.decode StableSwapLayout (record x00)
               = Ok (fields false))
    by (vm_compute; reflexivity).
  split; [ exact Hblob | ]. split; [ exact Hd | ].
  exact (proj1 (loadStableSwap_initialization_flag rpc (key xb0) swapProgram
                  payerAccount genesis _ (record x00) (fields false)
                  Hblob Hd) eq_refl).
Defined.

Lemma loaded_fields_from_blob_witness :
  StableSwapLayout = layout.SpecLayout 0 /\
  fst (loadStableSwap rpc (key xa0) swapProgram payerAccount genesis)
  = Ok client /\
  exists blob,
    fst (loadAccount rpc (key xa0) swapProgram genesis) = Ok blob /\
    tokenProgramId client = new_PublicKey (slice 161 32 blob) /\
    u64.value (feeDenominator client) = le_combine (slice 209 8 blob).
Proof.
  assert (Hlayout : StableSwapLayout = layout.SpecLayout 0) by reflexivity.
  assert (Hload : fst (loadStableSwap rpc (key xa0) swapProgram payerAccount
                         genesis) = Ok client)
    by (vm_compute; reflexivity).
  split; [ exact Hlayout | ]. split; [ exact Hload | ].
  destruct (loaded_fields_from_blob 0 rpc (key xa0) swapProgram payerAccount
              genesis client Hlayout Hload)
    as (blob & Hblob & _ & _ & _ & _ & _ & _ & Htoken & _ & _ & Hfee & _).
  exists blob. auto.
Defined.

Lemma createStableSwap_transaction_witness :
  getMinimumBalanceForRentExemption_answer rpc (layout.span StableSwapLayout)
    (ledger genesis) = (Ok 2401200, ledger genesis) /\
  0 <= 255 <= 255 /\
  Forall (fun v => 0 <= v <= 2 ^ 64 - 1) [100; 4; 1000] /\
  exists init,
    trace (snd (createStableSwap rpc payerAccount poolAccount (key xf0)
                  (key x12) (key x13) (key x11) (key x14) (key x15)
                  (key x16) swapProgram (key x06) 255 100 4 1000 genesis))
    = [ CallGetMinimumBalanceForRentExemption rpc 217;
        CallSendAndConfirmTransaction "createAccount and InitializeSwap" rpc
          {| instructions :=
               [ createAccount
                   {| fromPubkey := key x70;
                      newAccountPubkey := key xa0;
                      lamports := 2401200;
                      space := 217;
                      ownerProgramId := swapProgram |};
                 init ] |}
          [payerAccount; poolAccount] ].
Proof.
  assert (Hrent : getMinimumBalanceForRentExemption_answer rpc
                    (layout.span StableSwapLayout) (ledger genesis)
                  = (Ok 2401200, ledger genesis))
    by reflexivity.
  assert (Hnonce : 0 <= 255 <= 255) by lia.
  assert (Hamounts : Forall (fun v => 0 <= v <= 2 ^ 64 - 1) [100; 4; 1000])
    by (repeat constructor; lia).
  split; [ exact Hrent | ]. split; [ exact Hnonce | ].
  split; [ exact Hamounts | ].
  destruct (createStableSwap_transaction rpc payerAccount poolAccount
              (key xf0) (key x12) (key x13) (key x11) (key x14) (key x15)
              (key x16) swapProgram (key x06) 255 100 4 1000 genesis
              2401200 (ledger genesis) Hrent Hnonce Hamounts)
    as (init & _ & Htrace & _).
  exists init. exact Htrace.
Defined.

Lemma amounts_out_of_range_rejected_witness :
  Exists (fun a => Amount_value a < 0 \/ Amount_value a > 2 ^ 64 - 1)
    [Num (-1); Num 990] /\
  swap (key x21) (key x12) (key x13) (key x22) (Num (-1)) (Num 990) start
  = (Throw (instructions.ValueOutOfRangeError "swap"), start) /\
  Forall (fun a => 0 <= Amount_value a <= 2 ^ 64 - 1)
    [Num 0; U64 (u64.new_Numberu64 (2 ^ 64 - 1))] /\
  exists i,
    instructions.swapInstruction (key xa0) (key xf0) (key x21) (key x12)
      (key x13) (key x22) swapProgram (key x06) (Num 0)
      (U64 (u64.new_Numberu64 (2 ^ 64 - 1))) = Ok i.
Proof.
  assert (Hout : Exists (fun a => Amount_value a < 0
                                  \/ Amount_value a > 2 ^ 64 - 1)
                   [Num (-1); Num 990])
    by (apply Exists_cons_hd; cbn; lia).
  assert (Hin : Forall (fun a => 0 <= Amount_value a <= 2 ^ 64 - 1)
                  [Num 0; U64 (u64.new_Numberu64 (2 ^ 64 - 1))])
    by (repeat constructor; cbn; lia).
  destruct amounts_out_of_range_rejected
    as (_ & Hencoder & _ & _ & Hswap & _).
  split; [ exact Hout | ].
  split; [ exact (Hswap start _ _ _ _ _ _ Hout) | ].
  split; [ exact Hin | ].
  exact (proj2 (Hencoder (key xa0) (key xf0) (key x21) (key x12) (key x13)
                  (key x22) swapProgram (key x06) _ _) Hin).
Defined.

(** C9, as stated, fails: on the uninitialized pool at [key xb0],
    [loadStableSwap] fails with a message that names neither the operation
    nor the pool address nor the program id. *)
Lemma loadStableSwap_failure_without_context :
  exists e,
    fst (loadStableSwap rpc (key xb0) swapProgram payerAccount genesis)
    = Throw e /\
    message e = "Invalid token swap state" /\
    mentions "load" (message e) = false /\
    mentions (hex (toBuffer (key xb0))) (message e) = false /\
    mentions (hex (toBuffer swapProgram)) (message e) = false /\
    carries_context "loadStableSwap" [key xb0; swapProgram] e = false.
Proof.
  eexists. split; [ vm_compute; reflexivity | ].
  repeat split; vm_compute; reflexivity.
Qed.

Lemma loadStableSwap_failures_witness :
  fst (loadStableSwap rpc (key xb0) swapProgram payerAccount genesis)
  = Throw (Error "Invalid token swap state") /\
  fst (loadStableSwap rpc (key xc0) swapProgram payerAccount genesis)
  = Throw (Error "Failed to find account") /\
  fst (loadAccount rpc (key xc0) swapProgram genesis)
  = Throw (Error "Failed to find account").
Proof.
  assert (H1 : fst (loadStableSwap rpc (key xb0) swapProgram payerAccount
                      genesis) = Throw (Error "Invalid token swap state"))
    by (vm_compute; reflexivity).
  assert (H2 : fst (loadStableSwap rpc (key xc0) swapProgram payerAccount
                      genesis) = Throw (Error "Failed to find account"))
    by (vm_compute; reflexivity).
  split; [ exact H1 | ]. split; [ exact H2 | ].
  destruct (loadStableSwap_failures rpc (key xc0) swapProgram payerAccount
              genesis _ H2)
    as [H | [(blob & Hblob & _) | [(blob & d & Hblob & _) | H]]].
  - exact H.
  - discriminate Hblob.
  - discriminate Hblob.
  - discriminate H.
Defined.

Lemma tokenProgramId_from_blob_witness :
  fst (loadStableSwap rpc (key xa0) swapProgram payerAccount genesis)
  = Ok client /\
  exists blob d,
    fst (loadAccount rpc (key xa0) swapProgram genesis) = Ok blob /\
    layout.decode StableSwapLayout blob = Ok d /\
    tokenProgramId client = new_PublicKey (layout.tokenProgramId d).
Proof.
  assert (Hload : fst (loadStableSwap rpc (key xa0) swapProgram payerAccount
                         genesis) = Ok client)
    by (vm_compute; reflexivity).
  split; [ exact Hload | ].
  exact (proj1 tokenProgramId_from_blob rpc (key xa0) swapProgram
           payerAccount genesis client Hload).
Defined.

(** ** The further properties on the two ledgers *)

Lemma loadStableSwap_passes_failures_on_witness :
  fst (loadStableSwap rpc (key xc0) swapProgram payerAccount genesis)
  = Throw (Error "Failed to find account") /\
  fst (loadStableSwap (C := Faultnet.faultnet) rpc (key xd0) swapProgram
         payerAccount Faultnet.genesis)
  = Throw layout.MalformedAccountError /\
  fst (loadStableSwap (C := Faultnet.faultnet) rpc (key xa0) swapProgram
         payerAccount Faultnet.genesis)
  = Throw (Error "Unable to find a viable program address nonce").
Proof.
  assert (Hfetch : fst (loadAccount rpc (key xc0) swapProgram genesis)
                   = Throw (Error "Failed to find account"))
    by reflexivity.
  assert (Hbad : fst (loadAccount (C := Faultnet.faultnet) rpc (key xd0)
                        swapProgram Faultnet.genesis) = Ok [x01; x02; x03])
    by reflexivity.
  assert (Hdecode : layout.decode (StableSwapLayout (Collaborators :=
                                     Faultnet.faultnet)) [x01; x02; x03]
                    = Throw layout.MalformedAccountError)
    by reflexivity.
  assert (Hpool : fst (loadAccount (C := Faultnet.faultnet) rpc (key xa0)
                         swapProgram Faultnet.genesis) = Ok (record x01))
    by reflexivity.
  assert (Hd : layout.decode (StableSwapLayout (Collaborators :=
                                Faultnet.faultnet)) (record x01)
               = Ok (fields true))
    by (vm_compute; reflexivity).
  split; [ | split ].
  - exact (f_equal fst
             (proj1 (loadStableSwap_passes_failures_on rpc (key xc0)
                       swapProgram payerAccount genesis) _ Hfetch)).
  - exact (f_equal fst
             (proj1 (proj2 (loadStableSwap_passes_failures_on
                              (C := Faultnet.faultnet) rpc (key xd0)
                              swapProgram payerAccount Faultnet.genesis))
                _ _ Hbad Hdecode)).
  - exact (f_equal fst
             (proj2 (proj2 (loadStableSwap_passes_failures_on
                              (C := Faultnet.faultnet) rpc (key xa0)
                              swapProgram payerAccount Faultnet.genesis))
                _ (fields true) Hpool Hd eq_refl eq_refl)).
Defined.

Lemma createStableSwap_fails_before_submitting_witness :
  getMinimumBalanceForRentExemption_answer (Collaborators := Faultnet.faultnet)
    rpc (layout.span (StableSwapLayout (Collaborators := Faultnet.faultnet)))
    (ledger Faultnet.genesis)
  = (Throw (Error "failed to get minimum balance"), ledger Faultnet.genesis) /\
  trace (snd (createStableSwap (C := Faultnet.faultnet) rpc payerAccount
                poolAccount (key xf0) (key x12) (key x13) (key x11)
                (key x14) (key x15) (key x16) swapProgram (key x06) 255 100
                4 1000 Faultnet.genesis))
  = [CallGetMinimumBalanceForRentExemption rpc 217] /\
  instructions.createInitSwapInstruction TOKEN_PROGRAM_ID poolAccount
    (key xf0) (key x12) (key x13) (key x11) (key x16) swapProgram 255
    (Num (-1)) (Num 4) (Num 1000)
  = Throw (instructions.ValueOutOfRangeError "initialize") /\
  trace (snd (createStableSwap rpc payerAccount poolAccount (key xf0)
                (key x12) (key x13) (key x11) (key x14) (key x15) (key x16)
                swapProgram (key x06) 255 (-1) 4 1000 genesis))
  = [CallGetMinimumBalanceForRentExemption rpc 217].
Proof.
  assert (Hrent : getMinimumBalanceForRentExemption_answer
                    (Collaborators := Faultnet.faultnet) rpc
                    (layout.span
                       (StableSwapLayout (Collaborators := Faultnet.faultnet)))
                    (ledger Faultnet.genesis)
                  = (Throw (Error "failed to get minimum balance"),
                     ledger Faultnet.genesis))
    by reflexivity.
  assert (Hanswer : getMinimumBalanceForRentExemption_answer rpc
                      (layout.span StableSwapLayout) (ledger genesis)
                    = (Ok 2401200, ledger genesis))
    by reflexivity.
  assert (Hthrow : instructions.createInitSwapInstruction TOKEN_PROGRAM_ID
                     poolAccount (key xf0) (key x12) (key x13) (key x11)
                     (key x16) swapProgram 255 (Num (-1)) (Num 4) (Num 1000)
                   = Throw (instructions.ValueOutOfRangeError "initialize"))
    by reflexivity.
  split; [ exact Hrent | ]. split; [ | split; [ exact Hthrow | ] ].
  - exact (f_equal (fun r => trace (snd r))
             (proj1 (createStableSwap_fails_before_submitting
                       (C := Faultnet.faultnet) rpc payerAccount poolAccount
                       (key xf0) (key x12) (key x13) (key x11) (key x16)
                       swapProgram 255 100 4 1000 (key x14) (key x15)
                       (key x06) Faultnet.genesis _) _ Hrent)).
  - exact (f_equal (fun r => trace (snd r))
             (proj2 (createStableSwap_fails_before_submitting rpc
                       payerAccount poolAccount (key xf0) (key x12)
                       (key x13) (key x11) (key x16) swapProgram 255 (-1) 4
                       1000 (key x14) (key x15) (key x06) genesis _)
                _ _ Hanswer Hthrow)).
Defined.

Lemma create_then_load_authority_witness :
  fst (createStableSwap rpc payerAccount poolAccount (key x01) (key x12)
         (key x13) (key x11) (key x14) (key x15) (key x16) swapProgram
         (key x06) 255 100 4 1000 genesis)
  = Ok (created rpc payerAccount poolAccount (key x01) (key x12) (key x13)
          (key x11) (key x14) (key x15) swapProgram (key x06) 100 4 1000) /\
  fst (loadStableSwap rpc (key xa0) swapProgram payerAccount
         (snd (createStableSwap rpc payerAccount poolAccount (key x01)
                 (key x12) (key x13) (key x11) (key x14) (key x15) (key x16)
                 swapProgram (key x06) 255 100 4 1000 genesis)))
  = Ok client /\
  deriveAuthority (key xa0) swapProgram = Some (authority client) /\
  (authority client = key x01 <->
   deriveAuthority (key xa0) swapProgram = Some (key x01)).
Proof.
  assert (Hcreate :
      fst (createStableSwap rpc payerAccount poolAccount (key x01) (key x12)
             (key x13) (key x11) (key x14) (key x15) (key x16) swapProgram
             (key x06) 255 100 4 1000 genesis)
      = Ok (created rpc payerAccount poolAccount (key x01) (key x12)
              (key x13) (key x11) (key x14) (key x15) swapProgram (key x06)
              100 4 1000))
    by (vm_compute; reflexivity).
  assert (Hload :
      fst (loadStableSwap rpc (key xa0) swapProgram payerAccount
             (snd (createStableSwap rpc payerAccount poolAccount (key x01)
                     (key x12) (key x13) (key x11) (key x14) (key x15)
                     (key x16) swapProgram (key x06) 255 100 4 1000
                     genesis)))
      = Ok client)
    by (vm_compute; reflexivity).
  split; [ exact Hcreate | ]. split; [ exact Hload | ].
  exact (proj2 (proj2 (create_then_load_authority rpc payerAccount
                         poolAccount (key x01) (key x12) (key x13) (key x11)
                         (key x16) swapProgram 255 100 4 1000 (key x14)
                         (key x15) (key x06) genesis rpc payerAccount _
                         client Hcreate Hload))).
Defined.

Lemma methods_return_the_answer_witness :
  Forall (fun a => 0 <= Amount_value a <= 2 ^ 64 - 1)
    [Num 1000; Num 990; Num 5] /\
  fst (swap (key x21) (key x12) (key x13) (key x22) (Num 1000) (Num 990)
         start) = Ok "signature" /\
  fst (deposit (C := Faultnet.faultnet) (key x21) (key x22) (key x23)
         (Num 1000) (Num 990) (Num 5) Faultnet.start)
  = Throw (Error "Transaction was not confirmed").
Proof.
  assert (Hrange : Forall (fun a => 0 <= Amount_value a <= 2 ^ 64 - 1)
                     [Num 1000; Num 990; Num 5])
    by (repeat constructor; cbn; lia).
  split; [ exact Hrange | ]. split.
  - destruct (methods_return_the_answer start (key x21) (key x12) (key x13)
                (key x22) (Num 1000) (Num 990) (Num 5) Hrange)
      as ((i & Hswap) & _).
    exact (f_equal fst Hswap).
  - destruct (methods_return_the_answer (C := Faultnet.faultnet)
                Faultnet.start (key x21) (key x22) (key x23) (key x23)
                (Num 1000) (Num 990) (Num 5) Hrange)
      as (_ & (i & Hdeposit) & _).
    exact (f_equal fst Hdeposit).
Defined.

Lemma methods_submit_every_call_witness :
  Forall (fun a => 0 <= Amount_value a <= 2 ^ 64 - 1)
    [Num 1000; Num 990; Num 5] /\
  exists i,
    trace (world (snd (swap (key x21) (key x12) (key x13) (key x22)
                         (Num 1000) (Num 990)
                         (snd (swap (key x21) (key x12) (key x13) (key x22)
                                 (Num 1000) (Num 990) start)))))
    = [ CallSendAndConfirmTransaction "swap" rpc {| instructions := [i] |}
          [payerAccount];
        CallSendAndConfirmTransaction "swap" rpc {| instructions := [i] |}
          [payerAccount] ].
Proof.
  assert (Hrange : Forall (fun a => 0 <= Amount_value a <= 2 ^ 64 - 1)
                     [Num 1000; Num 990; Num 5])
    by (repeat constructor; cbn; lia).
  split; [ exact Hrange | ].
  exact (proj1 (methods_submit_every_call start (key x21) (key x12)
                  (key x13) (key x22) (Num 1000) (Num 990) (Num 5) Hrange)).
Defined.

Lemma load_then_swap_witness :
  fst (loadStableSwap rpc (key xa0) swapProgram payerAccount genesis)
  = Ok client /\
  Forall (fun a => 0 <= Amount_value a <= 2 ^ 64 - 1) [Num 1000; Num 990] /\
  exists i d derived,
    deriveAuthority (key xa0) swapProgram = Some derived /\
    trace (world (snd (swap (key x21) (key x12) (key x13) (key x22)
                         (Num 1000) (Num 990)
                         {| this := client;
                            world := snd (loadStableSwap rpc (key xa0)
                                            swapProgram payerAccount
                                            genesis) |})))
    = [ CallLoadAccount rpc (key xa0) swapProgram;
        CallSendAndConfirmTransaction "swap" rpc {| instructions := [i] |}
          [payerAccount] ] /\
    references i
    = [ (key xa0, false); (derived, false); (key x21, true);
        (key x12, true); (key x13, true); (key x22, true);
        (new_PublicKey (layout.tokenProgramId d), false) ].
Proof.
  assert (Hload : fst (loadStableSwap rpc (key xa0) swapProgram payerAccount
                         genesis) = Ok client)
    by (vm_compute; reflexivity).
  assert (Hrange : Forall (fun a => 0 <= Amount_value a <= 2 ^ 64 - 1)
                     [Num 1000; Num 990])
    by (repeat constructor; cbn; lia).
  split; [ exact Hload | ]. split; [ exact Hrange | ].
  destruct (load_then_swap rpc (key xa0) swapProgram payerAccount genesis
              client (key x21) (key x12) (key x13) (key x22) (Num 1000)
              (Num 990) Hload Hrange)
    as (i & blob & d & derived & _ & _ & Hderive & Htrace & Hrefs).
  exists i, d, derived. split; [ exact Hderive | ].
  split; [ exact Htrace | exact Hrefs ].
Defined.
